(** * GitIngest MCP server: the tool adapter of [src/index.ts]

    The program registers four tools on an MCP server.  Each tool's
    callback builds an option object, awaits the [ingest] collaborator
    once, and answers with one text block holding a pretty-printed JSON
    document; a [try]/[catch] around the whole body turns what the
    collaborator raises into a failure document.

    The embedding keeps the shape of the source:
    - JSON documents are an inductive type, objects are association lists in
      insertion order (the order [JSON.stringify] prints); a number is given
      by the decimal digits [Number::toString] prints for it;
    - [JSON.stringify v null 2] is an executable printer;
    - an [async] callback is a computation in a small monad that reads the
      outside world (the collaborator and the clock, which moves on while the
      callback is suspended), records every call to the collaborator and
      completes normally or abruptly;
    - the zod shapes given to [server.tool] are parsers from raw arguments
      to typed arguments;
    - a reply is read back from its text by a JSON parser, proved to invert
      the printer, so that statements about a reply are statements about the
      text the caller receives. *)

From Stdlib Require Import ZArith String List Ascii Bool DecimalString DecimalZ Lia.
Import ListNotations.
Open Scope list_scope.
Open Scope string_scope.

Set Warnings "-register-all".

(* ================================================================== *)
(** ** JSON documents and [JSON.stringify(_, null, 2)] *)

Module JSON.

Inductive digit : Type := d0 | d1 | d2 | d3 | d4 | d5 | d6 | d7 | d8 | d9.

Inductive nonzero : Type := n1 | n2 | n3 | n4 | n5 | n6 | n7 | n8 | n9.

Definition plain (d : nonzero) : digit :=
  match d with
  | n1 => d1 | n2 => d2 | n3 => d3 | n4 => d4 | n5 => d5
  | n6 => d6 | n7 => d7 | n8 => d8 | n9 => d9
  end.

Definition nonzero_of (d : digit) : option nonzero :=
  match d with
  | d0 => None
  | d1 => Some n1 | d2 => Some n2 | d3 => Some n3 | d4 => Some n4
  | d5 => Some n5 | d6 => Some n6 | d7 => Some n7 | d8 => Some n8
  | d9 => Some n9
  end.

(** The significant digits of a number: the first and the last are not 0. *)
Inductive significand : Type :=
| One (d : nonzero)
| Many (first : nonzero) (middle : list digit) (last : nonzero).

Definition digits (s : significand) : list digit :=
  match s with
  | One d => [plain d]
  | Many first middle last => plain first :: (middle ++ [plain last])%list
  end.

(** A JavaScript number other than [NaN].  A finite number that is not zero
    is given by its shortest decimal form, the one [Number::toString] works
    from: sign, significant digits [d1 ... dk] (with [d1] and [dk] not 0)
    and the power of ten of the last digit, so that the value is
    [d1 ... dk * 10 ^ exponent].  [102400] is digits 1024, exponent 2; [0.5]
    is digit 5, exponent -1.  [NaN] is left out: [z.number()] rejects it and
    no JSON text carries it. *)
Inductive number : Type :=
| Infinity (negative : bool)
| Zero (negative : bool)
| Finite (negative : bool) (digits : significand) (exponent : Z).

Definition is_zero (x : number) : bool :=
  match x with
  | Zero _ => true
  | _ => false
  end.

Inductive value : Type :=
| Null
| Bool (b : bool)
| Number (x : number)
| Str (s : string)
| Array (items : list value)
| Object (props : list (string * value)).

Definition object := list (string * value).

(** [o[k]]: [None] stands for [undefined]. *)
Fixpoint get (o : object) (k : string) : option value :=
  match o with
  | [] => None
  | (k', v) :: rest => if String.eqb k k' then Some v else get rest k
  end.

(** [o[k] = v]: an existing property keeps its place, a new one goes last. *)
Fixpoint set (o : object) (k : string) (v : value) : object :=
  match o with
  | [] => [(k, v)]
  | (k', v') :: rest =>
      if String.eqb k k' then (k, v) :: rest else (k', v') :: set rest k v
  end.

Definition keys (o : object) : list string := map fst o.

Definition strings (xs : list string) : value := Array (map Str xs).

(** An object literal some of whose property values are [undefined], as
    [JSON.stringify] sees it: those properties are skipped. *)
Fixpoint defined (props : list (string * option value)) : object :=
  match props with
  | [] => []
  | (k, Some v) :: rest => (k, v) :: defined rest
  | (_, None) :: rest => defined rest
  end.

(** *** Numbers from digits *)

Fixpoint drop_zeros (ds : list digit) : list digit :=
  match ds with
  | d0 :: rest => drop_zeros rest
  | _ => ds
  end.

(** The digits without their trailing zeros, and how many were cut. *)
Fixpoint trim (ds : list digit) : list digit * nat :=
  match ds with
  | [] => ([], 0)
  | d :: rest =>
      match trim rest, d with
      | ([], j), d0 => ([], S j)
      | (rest', j), _ => (d :: rest', j)
      end
  end.

Definition significand_of (ds : list digit) : option significand :=
  match ds with
  | [] => None
  | a :: tail =>
      match nonzero_of a, tail with
      | None, _ => None
      | Some first, [] => Some (One first)
      | Some first, _ :: _ =>
          match nonzero_of (List.last tail d0) with
          | Some last => Some (Many first (removelast tail) last)
          | None => None
          end
      end
  end.

(** The number written with the digits [ds] followed by [exponent] zeros
    (or with the decimal point moved left when [exponent] is negative);
    leading and trailing zeros of [ds] do not count. *)
Definition of_digits (negative : bool) (ds : list digit) (exponent : Z)
  : number :=
  let (significant, cut) := trim (drop_zeros ds) in
  match significand_of significant with
  | Some s => Finite negative s (exponent + Z.of_nat cut)
  | None => Zero negative
  end.

Fixpoint uint_digits (u : Decimal.uint) : list digit :=
  match u with
  | Decimal.Nil => []
  | Decimal.D0 r => d0 :: uint_digits r
  | Decimal.D1 r => d1 :: uint_digits r
  | Decimal.D2 r => d2 :: uint_digits r
  | Decimal.D3 r => d3 :: uint_digits r
  | Decimal.D4 r => d4 :: uint_digits r
  | Decimal.D5 r => d5 :: uint_digits r
  | Decimal.D6 r => d6 :: uint_digits r
  | Decimal.D7 r => d7 :: uint_digits r
  | Decimal.D8 r => d8 :: uint_digits r
  | Decimal.D9 r => d9 :: uint_digits r
  end.

(** The decimal digits of the magnitude of an integer. *)
Definition decimal (z : Z) : list digit :=
  match z with
  | Z0 => [d0]
  | Zpos p => uint_digits (Pos.to_uint p)
  | Zneg p => uint_digits (Pos.to_uint p)
  end.

(** An integer literal of the source, such as [102400]. *)
Definition integer (z : Z) : number :=
  match z with
  | Z0 => Zero false
  | Zpos p => of_digits false (uint_digits (Pos.to_uint p)) 0
  | Zneg p => of_digits true (uint_digits (Pos.to_uint p)) 0
  end.

(** *** Printing *)

Definition hex_digit (n : nat) : ascii :=
  nth n (list_ascii_of_string "0123456789abcdef") "0"%char.

Definition dquote : string := String (ascii_of_nat 34) "".

(** One character inside a JSON string literal. *)
Definition escape (c : ascii) : string :=
  let n := nat_of_ascii c in
  if Nat.eqb n 34 then "\" ++ dquote
  else if Nat.eqb n 92 then "\\"
  else if Nat.eqb n 8 then "\b"
  else if Nat.eqb n 9 then "\t"
  else if Nat.eqb n 10 then "\n"
  else if Nat.eqb n 12 then "\f"
  else if Nat.eqb n 13 then "\r"
  else if Nat.ltb n 32 then
    "\u00" ++ String (hex_digit (n / 16)) (String (hex_digit (n mod 16)) "")
  else String c "".

Fixpoint escape_all (s : string) : string :=
  match s with
  | EmptyString => ""
  | String c rest => escape c ++ escape_all rest
  end.

Definition quote (s : string) : string := dquote ++ escape_all s ++ dquote.

Definition digit_char (d : digit) : ascii :=
  match d with
  | d0 => "0" | d1 => "1" | d2 => "2" | d3 => "3" | d4 => "4"
  | d5 => "5" | d6 => "6" | d7 => "7" | d8 => "8" | d9 => "9"
  end%char.

Fixpoint digits_text (ds : list digit) : string :=
  match ds with
  | [] => ""
  | d :: rest => String (digit_char d) (digits_text rest)
  end.

Fixpoint zeros (n : nat) : list digit :=
  match n with
  | O => []
  | S n' => d0 :: zeros n'
  end.

(** Steps 6 to 10 of [Number::toString] for radix 10: [ds] are the [k]
    significant digits and the value is [0.d1...dk * 10 ^ n]. *)
Definition format (ds : list digit) (n : Z) : string :=
  let k := Z.of_nat (List.length ds) in
  if (k <=? n)%Z && (n <=? 21)%Z then
    digits_text (ds ++ zeros (Z.to_nat (n - k)))
  else if (0 <? n)%Z && (n <=? 21)%Z then
    digits_text (firstn (Z.to_nat n) ds) ++ "."
    ++ digits_text (skipn (Z.to_nat n) ds)
  else if (-6 <? n)%Z && (n <=? 0)%Z then
    "0." ++ digits_text (zeros (Z.to_nat (- n)) ++ ds)
  else
    let e := (n - 1)%Z in
    let sign := if (e <? 0)%Z then "-" else "+" in
    match ds with
    | [] => ""
    | [d] => digits_text [d] ++ "e" ++ sign ++ digits_text (decimal e)
    | d :: rest =>
        digits_text [d] ++ "." ++ digits_text rest
        ++ "e" ++ sign ++ digits_text (decimal e)
    end.

(** [Number::toString(x)], which [String(x)] returns for a number. *)
Definition number_text (x : number) : string :=
  match x with
  | Infinity false => "Infinity"
  | Infinity true => "-Infinity"
  | Zero _ => "0"
  | Finite negative s exponent =>
      (if negative then "-" else "")
      ++ format (digits s) (Z.of_nat (List.length (digits s)) + exponent)
  end.

(** A number inside [JSON.stringify]: a number that is not finite is
    printed as [null]. *)
Definition number_json (x : number) : string :=
  match x with
  | Infinity _ => "null"
  | _ => number_text x
  end.

Definition newline : string := String (ascii_of_nat 10) "".

(** [stringify_at indent v]: the text of [v] when the enclosing line is
    indented by [indent]; the gap is two spaces. *)
Fixpoint stringify_at (indent : string) (v : value) {struct v} : string :=
  let stepback := indent in
  let indent := indent ++ "  " in
  let separator := "," ++ newline ++ indent in
  match v with
  | Null => "null"
  | Bool true => "true"
  | Bool false => "false"
  | Number x => number_json x
  | Str s => quote s
  | Array [] => "[]"
  | Array items =>
      "[" ++ newline ++ indent
      ++ String.concat separator
           ((fix each (xs : list value) : list string :=
               match xs with
               | [] => []
               | x :: xs' => stringify_at indent x :: each xs'
               end) items)
      ++ newline ++ stepback ++ "]"
  | Object [] => "{}"
  | Object props =>
      "{" ++ newline ++ indent
      ++ String.concat separator
           ((fix each (ps : list (string * value)) : list string :=
               match ps with
               | [] => []
               | (k, x) :: ps' =>
                   (quote k ++ ": " ++ stringify_at indent x) :: each ps'
               end) props)
      ++ newline ++ stepback ++ "}"
  end.

(** [JSON.stringify(v, null, 2)]. *)
Definition stringify (v : value) : string := stringify_at "" v.

(** What the text of [v] says: [JSON.stringify] prints a number that is not
    finite as [null] and a negative zero as [0]; everything else is printed
    as it is. *)
Fixpoint rendered (v : value) {struct v} : value :=
  match v with
  | Number (Infinity _) => Null
  | Number (Zero _) => Number (Zero false)
  | Array items =>
      Array ((fix each (xs : list value) : list value :=
                match xs with
                | [] => []
                | x :: xs' => rendered x :: each xs'
                end) items)
  | Object props =>
      Object ((fix each (ps : list (string * value)) : object :=
                 match ps with
                 | [] => []
                 | (k, x) :: ps' => (k, rendered x) :: each ps'
                 end) props)
  | _ => v
  end.

End JSON.

(* ================================================================== *)
(** ** The JavaScript values this program converts *)

Module JS.

(** What a [catch (error)] clause can receive from the collaborator:
    - an instance of [Error], with whatever its [message] property holds
      ([None] is [undefined]; a string in the usual case);
    - an object without a prototype, as [Object.create(null)] makes one;
    - [undefined];
    - any other primitive, array or plain object. *)
Inductive thrown : Type :=
| ErrorInstance (message : option JSON.value)
| NoPrototype (props : JSON.object)
| Undefined
| Plain (v : JSON.value).

(** The [TypeError] that a failed conversion to a primitive raises. *)
Definition cannot_convert : thrown :=
  ErrorInstance (Some (JSON.Str "Cannot convert object to primitive value")).

(** [String(v)] on a value that is not [undefined]; [None] when the
    conversion raises a [TypeError].  A plain object is converted by the
    [toString] it inherits, unless it has a [toString] property of its own:
    that one is not callable, and neither [valueOf] yields a primitive.  An
    array joins the conversions of its elements, [null] counting as the
    empty string. *)
Fixpoint ToString (v : JSON.value) {struct v} : option string :=
  match v with
  | JSON.Null => Some "null"
  | JSON.Bool true => Some "true"
  | JSON.Bool false => Some "false"
  | JSON.Number x => Some (JSON.number_text x)
  | JSON.Str s => Some s
  | JSON.Array items =>
      option_map (String.concat ",")
        ((fix each (xs : list JSON.value) : option (list string) :=
            match xs with
            | [] => Some []
            | x :: xs' =>
                match (match x with
                       | JSON.Null => Some ""
                       | _ => ToString x
                       end), each xs' with
                | Some s, Some rest => Some (s :: rest)
                | _, _ => None
                end
            end) items)
  | JSON.Object props =>
      match JSON.get props "toString" with
      | Some _ => None
      | None => Some "[object Object]"
      end
  end.

(** Truthiness of a possibly [undefined] value, as [if (x)] tests it. *)
Definition ToBoolean (x : option JSON.value) : bool :=
  match x with
  | None => false
  | Some JSON.Null => false
  | Some (JSON.Bool b) => b
  | Some (JSON.Number n) => negb (JSON.is_zero n)
  | Some (JSON.Str s) => negb (String.eqb s "")
  | Some (JSON.Array _) => true
  | Some (JSON.Object _) => true
  end.

End JS.

(* ================================================================== *)
(** ** Asynchronous callbacks: the world, the run, completions *)

(** The result of awaiting the collaborator's promise. *)
Inductive Settled (A : Type) : Type :=
| Resolved (a : A)
| Rejected (error : JS.thrown).
Arguments Resolved {A} a.
Arguments Rejected {A} error.

(** What [ingest(source, options)] resolves to: [summary, tree, content]. *)
Definition IngestResult : Type := (string * string * string)%type.

(** Everything a callback reads from outside: the [ingest] function of
    [@magarcia/gitingest], and the text [new Date().toISOString()] yields,
    once when the callback is entered and once when it resumes after the
    collaborator has settled. *)
Record World : Type := {
  ingest : string -> JSON.object -> Settled IngestResult;
  ISOString_on_entry : string;
  ISOString_on_resume : string
}.

(** One call of the collaborator, as it was made. *)
Record IngestCall : Type := {
  call_source : string;
  call_options : JSON.object
}.

(** A run in progress: the calls made so far and what the clock shows. *)
Record Run : Type := {
  log : list IngestCall;
  now_ISOString : string
}.

Inductive Completion (A : Type) : Type :=
| Normal (a : A)
| Abrupt (error : JS.thrown).
Arguments Normal {A} a.
Arguments Abrupt {A} error.

Definition Async (A : Type) : Type := World -> Run -> Completion A * Run.

Definition ret {A} (a : A) : Async A := fun _ run => (Normal a, run).

Definition bind {A B} (m : Async A) (f : A -> Async B) : Async B :=
  fun w run =>
    match m w run with
    | (Normal a, run') => f a w run'
    | (Abrupt e, run') => (Abrupt e, run')
    end.

Definition throw {A} (e : JS.thrown) : Async A := fun _ run => (Abrupt e, run).

(** An expression that completes without touching the world. *)
Definition eval {A} (c : Completion A) : Async A := fun _ run => (c, run).

(** [try { body } catch (error) { handler }]. *)
Definition try_catch {A} (body : Async A) (handler : JS.thrown -> Async A)
  : Async A :=
  fun w run =>
    match body w run with
    | (Normal a, run') => (Normal a, run')
    | (Abrupt e, run') => handler e w run'
    end.

(** [await ingest(source, options)]: the call is made, the callback is
    suspended, and when it resumes the clock has moved on. *)
Definition await_ingest (source : string) (options : JSON.object)
  : Async IngestResult :=
  fun w run =>
    let run' :=
      {| log := (log run ++ [ {| call_source := source;
                                 call_options := options |} ])%list;
         now_ISOString := ISOString_on_resume w |} in
    match ingest w source options with
    | Resolved r => (Normal r, run')
    | Rejected e => (Abrupt e, run')
    end.

(** [new Date().toISOString()]. *)
Definition Date_toISOString : Async string :=
  fun _ run => (Normal (now_ISOString run), run).

(** [error instanceof Error ? error.message : String(error)]: the value of
    the [message] property of an [Error], the string conversion of anything
    else, which can raise. *)
Definition error_message (error : JS.thrown)
  : Completion (option JSON.value) :=
  match error with
  | JS.ErrorInstance message => Normal message
  | JS.NoPrototype _ => Abrupt JS.cannot_convert
  | JS.Undefined => Normal (Some (JSON.Str "undefined"))
  | JS.Plain v =>
      match JS.ToString v with
      | Some s => Normal (Some (JSON.Str s))
      | None => Abrupt JS.cannot_convert
      end
  end.

Declare Scope async_scope.
Delimit Scope async_scope with async.
Notation "x <- m ;; k" := (bind m (fun x => k))
  (at level 61, m at next level, right associativity) : async_scope.
Notation "' p <- m ;; k" := (bind m (fun x => match x with p => k end))
  (at level 61, p pattern, m at next level, right associativity) : async_scope.

(** The run of a callback that has just been entered. *)
Definition enter (w : World) : Run :=
  {| log := []; now_ISOString := ISOString_on_entry w |}.

Definition completion {A} (m : Async A) (w : World) : Completion A :=
  fst (m w (enter w)).

Definition calls {A} (m : Async A) (w : World) : list IngestCall :=
  log (snd (m w (enter w))).

(* ================================================================== *)
(** ** The zod shapes used by the tools *)

Module z.

(** A schema parses a possibly absent ([None], i.e. [undefined]) raw value. *)
Definition ZodType (A : Type) : Type := option JSON.value -> option A.

(** [z.string()] *)
Definition string : ZodType String.string :=
  fun raw => match raw with Some (JSON.Str s) => Some s | _ => None end.

(** [z.number()]: any number; [NaN], the one it rejects, is not in
    [JSON.number]. *)
Definition number : ZodType JSON.number :=
  fun raw => match raw with Some (JSON.Number n) => Some n | _ => None end.

Fixpoint all_items {A} (item : ZodType A) (xs : list JSON.value)
  : option (list A) :=
  match xs with
  | [] => Some []
  | x :: xs' =>
      match item (Some x), all_items item xs' with
      | Some a, Some rest => Some (a :: rest)
      | _, _ => None
      end
  end.

(** [z.array(item)] *)
Definition array {A} (item : ZodType A) : ZodType (list A) :=
  fun raw =>
    match raw with
    | Some (JSON.Array xs) => all_items item xs
    | _ => None
    end.

(** [schema.optional()] *)
Definition optional {A} (schema : ZodType A) : ZodType (option A) :=
  fun raw =>
    match raw with
    | None => Some None
    | Some _ => option_map Some (schema raw)
    end.

Fixpoint member {A} (s : String.string) (members : list (String.string * A))
  : option A :=
  match members with
  | [] => None
  | (name, a) :: rest => if String.eqb s name then Some a else member s rest
  end.

(** [z.enum([...])]: the listed strings and nothing else. *)
Definition enum {A} (members : list (String.string * A)) : ZodType A :=
  fun raw =>
    match raw with
    | Some (JSON.Str s) => member s members
    | _ => None
    end.

End z.

(* ================================================================== *)
(** ** Tool results *)

Record ContentBlock : Type := { type : string; text : string }.

Record CallToolResult : Type := { content : list ContentBlock }.

(** [if (x) options[key] = x;] *)
Definition assign_if_truthy (options : JSON.object) (key : string)
  (x : option JSON.value) : JSON.object :=
  if JS.ToBoolean x then
    match x with
    | Some v => JSON.set options key v
    | None => options
    end
  else options.

(* ================================================================== *)
(** ** Tool 1: [ingest_github_repo] (index.ts 21-104) *)

Module ingest_github_repo.

Record args : Type := {
  repo_url : string;
  include_patterns : option (list string);
  exclude_patterns : option (list string);
  max_file_size : option JSON.number
}.

Definition inputSchema (raw : JSON.object) : option args :=
  match z.string (JSON.get raw "repo_url"),
        z.optional (z.array z.string) (JSON.get raw "include_patterns"),
        z.optional (z.array z.string) (JSON.get raw "exclude_patterns"),
        z.optional z.number (JSON.get raw "max_file_size") with
  | Some u, Some i, Some e, Some m =>
      Some {| repo_url := u; include_patterns := i;
              exclude_patterns := e; max_file_size := m |}
  | _, _, _, _ => None
  end.

(** Lines 55-58: the option object handed to the collaborator. *)
Definition options (a : args) : JSON.object :=
  let options : JSON.object := [] in
  let options := assign_if_truthy options "include_patterns"
                   (option_map JSON.strings (include_patterns a)) in
  let options := assign_if_truthy options "exclude_patterns"
                   (option_map JSON.strings (exclude_patterns a)) in
  let options := assign_if_truthy options "max_file_size"
                   (option_map JSON.Number (max_file_size a)) in
  options.

Definition callback (a : args) : Async CallToolResult :=
  try_catch
    (let options := options a in
     ' (summary, tree, content) <- await_ingest (repo_url a) options ;;
     timestamp <- Date_toISOString ;;
     ret {| content := [ {|
       type := "text";
       text := JSON.stringify (JSON.Object [
         ("summary", JSON.Str summary);
         ("tree", JSON.Str tree);
         ("content", JSON.Str content);
         ("metadata", JSON.Object [
            ("repo_url", JSON.Str (repo_url a));
            ("timestamp", JSON.Str timestamp);
            ("options_used", JSON.Object options) ]) ]) |} ] |})%async
    (fun error =>
       (message <- eval (error_message error) ;;
        ret {| content := [ {|
          type := "text";
          text := JSON.stringify (JSON.Object (JSON.defined [
            ("error", Some (JSON.Str "Failed to ingest repository"));
            ("message", message);
            ("repo_url", Some (JSON.Str (repo_url a))) ])) |} ] |})%async).

End ingest_github_repo.

(* ================================================================== *)
(** ** Tool 2: [get_repo_structure] (index.ts 107-155) *)

Module get_repo_structure.

Record args : Type := { repo_url : string }.

Definition inputSchema (raw : JSON.object) : option args :=
  match z.string (JSON.get raw "repo_url") with
  | Some u => Some {| repo_url := u |}
  | None => None
  end.

(** Lines 115-117: [{ max_file_size: 1 }]. *)
Definition options : JSON.object :=
  [ ("max_file_size", JSON.Number (JSON.integer 1)) ].

Definition callback (a : args) : Async CallToolResult :=
  try_catch
    (' (summary, tree, _) <- await_ingest (repo_url a) options ;;
     ret {| content := [ {|
       type := "text";
       text := JSON.stringify (JSON.Object [
         ("summary", JSON.Str summary);
         ("tree", JSON.Str tree);
         ("repo_url", JSON.Str (repo_url a)) ]) |} ] |})%async
    (fun error =>
       (message <- eval (error_message error) ;;
        ret {| content := [ {|
          type := "text";
          text := JSON.stringify (JSON.Object (JSON.defined [
            ("error", Some (JSON.Str "Failed to get repository structure"));
            ("message", message);
            ("repo_url", Some (JSON.Str (repo_url a))) ])) |} ] |})%async).

End get_repo_structure.

(* ================================================================== *)
(** ** Tool 3: [analyze_code_files] (index.ts 158-240) *)

Module analyze_code_files.

(** The string literals of the [z.enum] at lines 164-172. *)
Inductive Language : Type :=
| python | javascript | typescript | go | rust | java | csharp.

Definition languages : list (string * Language) :=
  [ ("python", python); ("javascript", javascript);
    ("typescript", typescript); ("go", go); ("rust", rust);
    ("java", java); ("csharp", csharp) ].

(** The string a [Language] is at run time. *)
Definition literal (l : Language) : string :=
  match l with
  | python => "python"
  | javascript => "javascript"
  | typescript => "typescript"
  | go => "go"
  | rust => "rust"
  | java => "java"
  | csharp => "csharp"
  end.

Record args : Type := { repo_url : string; language : Language }.

Definition inputSchema (raw : JSON.object) : option args :=
  match z.string (JSON.get raw "repo_url"),
        z.enum languages (JSON.get raw "language") with
  | Some u, Some l => Some {| repo_url := u; language := l |}
  | _, _ => None
  end.

(** Lines 177-185. *)
Definition patternMap (l : Language) : list string :=
  match l with
  | python => ["*.py"]
  | javascript => ["*.js"; "*.mjs"]
  | typescript => ["*.ts"; "*.tsx"]
  | go => ["*.go"]
  | rust => ["*.rs"]
  | java => ["*.java"]
  | csharp => ["*.cs"]
  end.

(** Lines 187-196: the option object literal. *)
Definition options (l : Language) : JSON.object :=
  [ ("include_patterns", JSON.strings (patternMap l));
    ("exclude_patterns",
     JSON.strings ["node_modules/*"; "dist/*"; "build/*"; "*.min.js"]);
    ("max_file_size", JSON.Number (JSON.integer 102400)) ].

Definition callback (a : args) : Async CallToolResult :=
  try_catch
    (' (summary, tree, content) <- await_ingest (repo_url a)
                                     (options (language a)) ;;
     ret {| content := [ {|
       type := "text";
       text := JSON.stringify (JSON.Object [
         ("summary", JSON.Str summary);
         ("tree", JSON.Str tree);
         ("content", JSON.Str content);
         ("analysis", JSON.Object [
            ("language", JSON.Str (literal (language a)));
            ("patterns_used", JSON.strings (patternMap (language a)));
            ("repo_url", JSON.Str (repo_url a)) ]) ]) |} ] |})%async
    (fun error =>
       (message <- eval (error_message error) ;;
        ret {| content := [ {|
          type := "text";
          text := JSON.stringify (JSON.Object (JSON.defined [
            ("error", Some (JSON.Str "Failed to analyze code files"));
            ("message", message);
            ("repo_url", Some (JSON.Str (repo_url a)));
            ("language", Some (JSON.Str (literal (language a)))) ])) |} ] |})%async).

End analyze_code_files.

(* ================================================================== *)
(** ** Tool 4: [get_repo_docs] (index.ts 243-296) *)

Module get_repo_docs.

Record args : Type := { repo_url : string }.

Definition inputSchema (raw : JSON.object) : option args :=
  match z.string (JSON.get raw "repo_url") with
  | Some u => Some {| repo_url := u |}
  | None => None
  end.

(** Lines 251-254: the option object literal. *)
Definition options : JSON.object :=
  [ ("include_patterns",
     JSON.strings ["*.md"; "*.mdx"; "*.txt"; "LICENSE*"; "README*"]);
    ("max_file_size", JSON.Number (JSON.integer 51200)) ].

Definition callback (a : args) : Async CallToolResult :=
  try_catch
    (' (summary, tree, content) <- await_ingest (repo_url a) options ;;
     ret {| content := [ {|
       type := "text";
       text := JSON.stringify (JSON.Object [
         ("summary", JSON.Str summary);
         ("tree", JSON.Str tree);
         ("content", JSON.Str content);
         ("metadata", JSON.Object [
            ("type", JSON.Str "documentation");
            ("repo_url", JSON.Str (repo_url a)) ]) ]) |} ] |})%async
    (fun error =>
       (message <- eval (error_message error) ;;
        ret {| content := [ {|
          type := "text";
          text := JSON.stringify (JSON.Object (JSON.defined [
            ("error", Some (JSON.Str "Failed to get repository documentation"));
            ("message", message);
            ("repo_url", Some (JSON.Str (repo_url a))) ])) |} ] |})%async).

End get_repo_docs.

(* ================================================================== *)
(** ** The server: registration and dispatch *)

Module McpServer.

Record RegisteredTool : Type := {
  name : string;
  description : string;
  run : option JSON.value -> option (Async CallToolResult)
}.

(** Modelled from the spec: [server.tool(name, description, shape,
    callback)] is the SDK's registration.  What it keeps is read here as one
    function of the raw arguments: they must be an object that the shape
    accepts, and the callback then receives the parsed fields (keys the
    shape does not list are dropped). *)
Definition tool {A} (name description : string)
  (shape : JSON.object -> option A) (cb : A -> Async CallToolResult)
  : RegisteredTool :=
  {| name := name;
     description := description;
     run := fun arguments =>
              match arguments with
              | Some (JSON.Object raw) => option_map cb (shape raw)
              | _ => None
              end |}.

Inductive CallToolOutcome : Type :=
| ToolNotFound (name : string)
| InvalidParams (name : string)
| Result (r : CallToolResult).

(** Modelled from the spec: the dispatch of a tool call belongs to the MCP
    SDK, which [src/index.ts] only imports.  Section 4.1: the input is
    validated against the declared schema before the collaborator is
    invoked, and a validation failure surfaces as a failure of its own
    (here [InvalidParams]) without running the callback. *)
Definition callTool (tools : list RegisteredTool) (tool_name : string)
  (arguments : option JSON.value) : Async CallToolOutcome :=
  match find (fun t => String.eqb (name t) tool_name) tools with
  | None => ret (ToolNotFound tool_name)
  | Some t =>
      match run t arguments with
      | None => ret (InvalidParams tool_name)
      | Some callback => (r <- callback ;; ret (Result r))%async
      end
  end.

End McpServer.

Module GitIngestMCP.

(** [init()]: the four registrations, in source order. *)
Definition init : list McpServer.RegisteredTool :=
  [ McpServer.tool "ingest_github_repo"
      "Fetches and formats a GitHub repository for LLM consumption. Returns structured content including summary, file tree, and full file contents."
      ingest_github_repo.inputSchema ingest_github_repo.callback;
    McpServer.tool "get_repo_structure"
      "Gets just the directory tree structure of a GitHub repository without file contents"
      get_repo_structure.inputSchema get_repo_structure.callback;
    McpServer.tool "analyze_code_files"
      "Analyzes specific types of code files in a repository"
      analyze_code_files.inputSchema analyze_code_files.callback;
    McpServer.tool "get_repo_docs"
      "Retrieves only documentation files from a repository (README, markdown files, etc.)"
      get_repo_docs.inputSchema get_repo_docs.callback ].

(** A validated call of one of the four tools. *)
Inductive ToolCall : Type :=
| IngestGithubRepo (a : ingest_github_repo.args)
| GetRepoStructure (a : get_repo_structure.args)
| AnalyzeCodeFiles (a : analyze_code_files.args)
| GetRepoDocs (a : get_repo_docs.args).

Definition handle (c : ToolCall) : Async CallToolResult :=
  match c with
  | IngestGithubRepo a => ingest_github_repo.callback a
  | GetRepoStructure a => get_repo_structure.callback a
  | AnalyzeCodeFiles a => analyze_code_files.callback a
  | GetRepoDocs a => get_repo_docs.callback a
  end.

Definition tool_name (c : ToolCall) : string :=
  match c with
  | IngestGithubRepo _ => "ingest_github_repo"
  | GetRepoStructure _ => "get_repo_structure"
  | AnalyzeCodeFiles _ => "analyze_code_files"
  | GetRepoDocs _ => "get_repo_docs"
  end.

Definition repo_url (c : ToolCall) : string :=
  match c with
  | IngestGithubRepo a => ingest_github_repo.repo_url a
  | GetRepoStructure a => get_repo_structure.repo_url a
  | AnalyzeCodeFiles a => analyze_code_files.repo_url a
  | GetRepoDocs a => get_repo_docs.repo_url a
  end.

(** The option object the tool's callback hands to [ingest]. *)
Definition options (c : ToolCall) : JSON.object :=
  match c with
  | IngestGithubRepo a => ingest_github_repo.options a
  | GetRepoStructure _ => get_repo_structure.options
  | AnalyzeCodeFiles a =>
      analyze_code_files.options (analyze_code_files.language a)
  | GetRepoDocs _ => get_repo_docs.options
  end.

(** The [error] text of the tool's [catch] block. *)
Definition error_text (c : ToolCall) : string :=
  match c with
  | IngestGithubRepo _ => "Failed to ingest repository"
  | GetRepoStructure _ => "Failed to get repository structure"
  | AnalyzeCodeFiles _ => "Failed to analyze code files"
  | GetRepoDocs _ => "Failed to get repository documentation"
  end.

End GitIngestMCP.


(* ================================================================== *)
(** ** Reading a reply back

    A caller receives the text of a reply and parses it.  [Reader.parse] is
    that parser: standard JSON over the same [JSON.value], recursive descent
    with a fuel bound taken from the length of the text.  A numeral, with
    its fraction and exponent, is read as the number that has exactly its
    digits: on the numerals [JSON.stringify] prints, the shortest forms of
    the numbers printed, this is what [JSON.parse] yields ([JSON.parse]
    rounds a longer numeral and reads one beyond the largest number as
    [Infinity]; no reply holds such a numeral). *)

Module Reader.

Definition is_ws (c : ascii) : bool :=
  let n := nat_of_ascii c in
  Nat.eqb n 32 || Nat.eqb n 10 || Nat.eqb n 13 || Nat.eqb n 9.

Fixpoint skip_ws (s : string) : string :=
  match s with
  | String c rest => if is_ws c then skip_ws rest else s
  | EmptyString => s
  end.

Definition unhex (c : ascii) : option nat :=
  let n := nat_of_ascii c in
  if Nat.leb 48 n && Nat.leb n 57 then Some (n - 48)
  else if Nat.leb 97 n && Nat.leb n 102 then Some (n - 87)
  else if Nat.leb 65 n && Nat.leb n 70 then Some (n - 55)
  else None.

(** The character an escape letter stands for. *)
Definition unescape (c : ascii) : option ascii :=
  let n := nat_of_ascii c in
  if Nat.eqb n 34 then Some c
  else if Nat.eqb n 92 then Some c
  else if Nat.eqb n 47 then Some c
  else if Nat.eqb n 98 then Some (ascii_of_nat 8)
  else if Nat.eqb n 116 then Some (ascii_of_nat 9)
  else if Nat.eqb n 110 then Some (ascii_of_nat 10)
  else if Nat.eqb n 102 then Some (ascii_of_nat 12)
  else if Nat.eqb n 114 then Some (ascii_of_nat 13)
  else None.

Definition prepend (c : ascii) (r : option (string * string))
  : option (string * string) :=
  match r with
  | Some (s, rest) => Some (String c s, rest)
  | None => None
  end.

(** The characters of a string literal after its opening quote, up to and
    including the closing quote. *)
Fixpoint parse_chars (s : string) : option (string * string) :=
  match s with
  | EmptyString => None
  | String c rest =>
      if Nat.eqb (nat_of_ascii c) 34 then Some ("", rest)
      else if Nat.eqb (nat_of_ascii c) 92 then
        match rest with
        | EmptyString => None
        | String e rest' =>
            if Nat.eqb (nat_of_ascii e) 117 then
              match rest' with
              | String h1 (String h2 (String h3 (String h4 rest''))) =>
                  match unhex h1, unhex h2, unhex h3, unhex h4 with
                  | Some 0, Some 0, Some a, Some b =>
                      prepend (ascii_of_nat (16 * a + b)) (parse_chars rest'')
                  | _, _, _, _ => None
                  end
              | _ => None
              end
            else
              match unescape e with
              | Some c' => prepend c' (parse_chars rest')
              | None => None
              end
        end
      else prepend c (parse_chars rest)
  end.

Definition digit_of (c : ascii) : option JSON.digit :=
  let n := nat_of_ascii c in
  if Nat.eqb n 48 then Some JSON.d0
  else if Nat.eqb n 49 then Some JSON.d1
  else if Nat.eqb n 50 then Some JSON.d2
  else if Nat.eqb n 51 then Some JSON.d3
  else if Nat.eqb n 52 then Some JSON.d4
  else if Nat.eqb n 53 then Some JSON.d5
  else if Nat.eqb n 54 then Some JSON.d6
  else if Nat.eqb n 55 then Some JSON.d7
  else if Nat.eqb n 56 then Some JSON.d8
  else if Nat.eqb n 57 then Some JSON.d9
  else None.

(** The longest run of digits at the head of a text, and what follows. *)
Fixpoint span_digits (s : string) : list JSON.digit * string :=
  match s with
  | EmptyString => ([], s)
  | String c rest =>
      match digit_of c with
      | Some d => let (ds, r) := span_digits rest in (d :: ds, r)
      | None => ([], s)
      end
  end.

Fixpoint digits_uint (ds : list JSON.digit) : Decimal.uint :=
  match ds with
  | [] => Decimal.Nil
  | JSON.d0 :: r => Decimal.D0 (digits_uint r)
  | JSON.d1 :: r => Decimal.D1 (digits_uint r)
  | JSON.d2 :: r => Decimal.D2 (digits_uint r)
  | JSON.d3 :: r => Decimal.D3 (digits_uint r)
  | JSON.d4 :: r => Decimal.D4 (digits_uint r)
  | JSON.d5 :: r => Decimal.D5 (digits_uint r)
  | JSON.d6 :: r => Decimal.D6 (digits_uint r)
  | JSON.d7 :: r => Decimal.D7 (digits_uint r)
  | JSON.d8 :: r => Decimal.D8 (digits_uint r)
  | JSON.d9 :: r => Decimal.D9 (digits_uint r)
  end.

Definition digits_value (ds : list JSON.digit) : Z :=
  Z.of_uint (digits_uint ds).

(** After the [e]: an optional sign and at least one digit. *)
Definition parse_exponent (s : string) : option (Z * string) :=
  let (negative, s1) :=
    match s with
    | String c r =>
        if Nat.eqb (nat_of_ascii c) 45 then (true, r)
        else if Nat.eqb (nat_of_ascii c) 43 then (false, r)
        else (false, s)
    | EmptyString => (false, s)
    end in
  match span_digits s1 with
  | ([], _) => None
  | (ds, rest) =>
      Some (if negative then (- digits_value ds)%Z else digits_value ds, rest)
  end.

(** After the integer part: an optional fraction, a point and at least one
    digit. *)
Definition parse_fraction (s : string) : option (list JSON.digit * string) :=
  match s with
  | String c r =>
      if Nat.eqb (nat_of_ascii c) 46 then
        match span_digits r with
        | ([], _) => None
        | (ds, rest) => Some (ds, rest)
        end
      else Some ([], s)
  | EmptyString => Some ([], s)
  end.

(** After the fraction: an optional exponent. *)
Definition parse_exponent_part (s : string) : option (Z * string) :=
  match s with
  | String c r =>
      if Nat.eqb (nat_of_ascii c) 101 || Nat.eqb (nat_of_ascii c) 69
      then parse_exponent r
      else Some (0%Z, s)
  | EmptyString => Some (0%Z, s)
  end.

(** After the sign: integer part, fraction, exponent. *)
Definition parse_magnitude (negative : bool) (s : string)
  : option (JSON.number * string) :=
  match span_digits s with
  | ([], _) => None
  | (int, s2) =>
      match parse_fraction s2 with
      | None => None
      | Some (frac, s3) =>
          match parse_exponent_part s3 with
          | None => None
          | Some (e, rest) =>
              Some (JSON.of_digits negative (int ++ frac)%list
                      (e - Z.of_nat (List.length frac)),
                    rest)
          end
      end
  end.

(** A JSON number: sign, integer part, fraction, exponent. *)
Definition parse_number (s : string) : option (JSON.number * string) :=
  match s with
  | String c r =>
      if Nat.eqb (nat_of_ascii c) 45 then parse_magnitude true r
      else parse_magnitude false s
  | EmptyString => None
  end.

Section Sequences.
Variable parse_value : string -> option (JSON.value * string).

(** Elements after [[], up to and including the closing bracket. *)
Fixpoint parse_items (n : nat) (s : string)
  : option (list JSON.value * string) :=
  match n with
  | 0 => None
  | S n' =>
      match parse_value s with
      | Some (v, r) =>
          match skip_ws r with
          | String c r' =>
              if Nat.eqb (nat_of_ascii c) 44 then
                match parse_items n' r' with
                | Some (vs, r'') => Some (v :: vs, r'')
                | None => None
                end
              else if Nat.eqb (nat_of_ascii c) 93 then Some ([v], r')
              else None
          | EmptyString => None
          end
      | None => None
      end
  end.

(** Members after [{], up to and including the closing brace. *)
Fixpoint parse_members (n : nat) (s : string)
  : option (JSON.object * string) :=
  match n with
  | 0 => None
  | S n' =>
      match skip_ws s with
      | String q r =>
          if Nat.eqb (nat_of_ascii q) 34 then
            match parse_chars r with
            | Some (k, r1) =>
                match skip_ws r1 with
                | String colon r2 =>
                    if Nat.eqb (nat_of_ascii colon) 58 then
                      match parse_value r2 with
                      | Some (v, r3) =>
                          match skip_ws r3 with
                          | String c r4 =>
                              if Nat.eqb (nat_of_ascii c) 44 then
                                match parse_members n' r4 with
                                | Some (ps, r5) => Some ((k, v) :: ps, r5)
                                | None => None
                                end
                              else if Nat.eqb (nat_of_ascii c) 125
                              then Some ([(k, v)], r4)
                              else None
                          | EmptyString => None
                          end
                      | None => None
                      end
                    else None
                | EmptyString => None
                end
            | None => None
            end
          else None
      | EmptyString => None
      end
  end.
End Sequences.

Fixpoint parse_value (fuel : nat) (s : string)
  : option (JSON.value * string) :=
  match fuel with
  | 0 => None
  | S fuel' =>
      match skip_ws s with
      | EmptyString => None
      | String c rest =>
          let n := nat_of_ascii c in
          if Nat.eqb n 34 then
            match parse_chars rest with
            | Some (x, r) => Some (JSON.Str x, r)
            | None => None
            end
          else if Nat.eqb n 91 then
            match skip_ws rest with
            | String c' r =>
                if Nat.eqb (nat_of_ascii c') 93 then Some (JSON.Array [], r)
                else
                  match parse_items (parse_value fuel') fuel' rest with
                  | Some (vs, r') => Some (JSON.Array vs, r')
                  | None => None
                  end
            | EmptyString => None
            end
          else if Nat.eqb n 123 then
            match skip_ws rest with
            | String c' r =>
                if Nat.eqb (nat_of_ascii c') 125 then Some (JSON.Object [], r)
                else
                  match parse_members (parse_value fuel') fuel' rest with
                  | Some (ps, r') => Some (JSON.Object ps, r')
                  | None => None
                  end
            | EmptyString => None
            end
          else if Nat.eqb n 110 then
            match rest with
            | String "u" (String "l" (String "l" r)) => Some (JSON.Null, r)
            | _ => None
            end
          else if Nat.eqb n 116 then
            match rest with
            | String "r" (String "u" (String "e" r)) => Some (JSON.Bool true, r)
            | _ => None
            end
          else if Nat.eqb n 102 then
            match rest with
            | String "a" (String "l" (String "s" (String "e" r))) =>
                Some (JSON.Bool false, r)
            | _ => None
            end
          else
            match parse_number (String c rest) with
            | Some (x, r) => Some (JSON.Number x, r)
            | None => None
            end
      end
  end.

(** [JSON.parse(text)]: one value, then nothing but white space. *)
Definition parse (text : string) : option JSON.value :=
  match parse_value (S (String.length text)) text with
  | Some (v, rest) =>
      match skip_ws rest with
      | EmptyString => Some v
      | String _ _ => None
      end
  | None => None
  end.

End Reader.
(* ================================================================== *)
(** ** The reply shape of the specification

    Section 3 of the specification describes every reply as either
    [{status: success, payload}] or
    [{status: failure, error_kind, message, context}].  The documents the
    program prints have no [status] property: a failure document is one with
    an [error] property, whose text is the error kind; [message] is the
    message, and the remaining properties ([repo_url], [language]) are the
    context.  Any other object is a success whose payload is the object
    itself.  [Spec.read] makes this reading explicit, starting from the text
    of the reply. *)

Module Spec.

Inductive OperationReply : Type :=
| success (payload : JSON.object)
| failure (error_kind message : string) (context : JSON.object).

Definition without (names : list string) (o : JSON.object) : JSON.object :=
  filter (fun p => negb (existsb (String.eqb (fst p)) names)) o.

Definition read_document (doc : JSON.value) : option OperationReply :=
  match doc with
  | JSON.Object props =>
      match JSON.get props "error" with
      | None => Some (success props)
      | Some (JSON.Str kind) =>
          match JSON.get props "message" with
          | Some (JSON.Str message) =>
              Some (failure kind message (without ["error"; "message"] props))
          | _ => None
          end
      | Some _ => None
      end
  | _ => None
  end.

(** A reply is one text block holding one JSON document. *)
Definition read (r : CallToolResult) : option OperationReply :=
  match content r with
  | [block] =>
      if String.eqb (type block) "text" then
        match Reader.parse (text block) with
        | Some doc => read_document doc
        | None => None
        end
      else None
  | _ => None
  end.

(** The message text of a raised value, in the words of section 4.1: the
    collaborator's own error text if available, else a stringified form of
    the failure.  An [Error] whose [message] is not a string, and a value
    whose string conversion raises, have none. *)
Inductive message_text : JS.thrown -> string -> Prop :=
| own_text (m : string) :
    message_text (JS.ErrorInstance (Some (JSON.Str m))) m
| stringified_undefined :
    message_text JS.Undefined "undefined"
| stringified (v : JSON.value) (m : string) :
    JS.ToString v = Some m -> message_text (JS.Plain v) m.

(** The names of the closed language set, as section 4.1 lists them. *)
Definition language_names : list string :=
  ["python"; "javascript"; "typescript"; "go"; "rust"; "java"; "csharp"].

(** The failure reply as the specification words it (sections 4.1 and 8):
    status failure, a non-empty message, an error kind naming the operation,
    and a context echoing the repository reference (and the language for
    [analyze_code_files]). *)
Definition failure_reply_as_stated (c : GitIngestMCP.ToolCall) (w : World)
  : Prop :=
  exists r kind message context,
    completion (GitIngestMCP.handle c) w = Normal r
    /\ read r = Some (failure kind message context)
    /\ message <> ""
    /\ kind = GitIngestMCP.error_text c
    /\ JSON.get context "repo_url" = Some (JSON.Str (GitIngestMCP.repo_url c))
    /\ (forall a, c = GitIngestMCP.AnalyzeCodeFiles a ->
          JSON.get context "language"
          = Some (JSON.Str (analyze_code_files.literal
                              (analyze_code_files.language a)))).

(** The option translation of [ingest_github_repo] as the specification
    words it (section 4.1): every field that is present is copied verbatim,
    every absent field is left out. *)
Definition options_as_stated (a : ingest_github_repo.args)
  (o : JSON.object) : Prop :=
  (forall l, ingest_github_repo.include_patterns a = Some l ->
             JSON.get o "include_patterns" = Some (JSON.strings l))
  /\ (forall l, ingest_github_repo.exclude_patterns a = Some l ->
                JSON.get o "exclude_patterns" = Some (JSON.strings l))
  /\ (forall n, ingest_github_repo.max_file_size a = Some n ->
                JSON.get o "max_file_size" = Some (JSON.Number n))
  /\ (ingest_github_repo.include_patterns a = None ->
      JSON.get o "include_patterns" = None)
  /\ (ingest_github_repo.exclude_patterns a = None ->
      JSON.get o "exclude_patterns" = None)
  /\ (ingest_github_repo.max_file_size a = None ->
      JSON.get o "max_file_size" = None).

(** The success reply of [ingest_github_repo] as the specification words
    it (section 4.1): the collaborator's three outputs and metadata echoing
    the repository reference, the option set actually passed to the
    collaborator, and a timestamp. *)
Definition ingest_success_as_stated (a : ingest_github_repo.args) (w : World)
  : Prop :=
  exists o r summary tree content_ timestamp,
    calls (ingest_github_repo.callback a) w
    = [ {| call_source := ingest_github_repo.repo_url a;
           call_options := o |} ]
    /\ ingest w (ingest_github_repo.repo_url a) o
       = Resolved (summary, tree, content_)
    /\ completion (ingest_github_repo.callback a) w = Normal r
    /\ read r
       = Some (success
                 [ ("summary", JSON.Str summary);
                   ("tree", JSON.Str tree);
                   ("content", JSON.Str content_);
                   ("metadata",
                    JSON.Object
                      [ ("repo_url", JSON.Str (ingest_github_repo.repo_url a));
                        ("timestamp", JSON.Str timestamp);
                        ("options_used", JSON.Object o) ]) ]).

End Spec.

(* ================================================================== *)
(** ** Concrete worlds and calls used in the examples *)

Module Examples.

Definition hello_world : string := "https://github.com/octocat/Hello-World".

(** The instant at which the example callbacks are entered. *)
Definition midnight : string := "2025-01-01T00:00:00.000Z".

(** A collaborator that raises [new Error()], whose message is empty. *)
Definition silent_failure : World :=
  {| ingest := fun _ _ => Rejected (JS.ErrorInstance (Some (JSON.Str "")));
     ISOString_on_entry := midnight;
     ISOString_on_resume := "2025-01-01T00:00:01.250Z" |}.

(** A collaborator that raises the string ["rate limited"]. *)
Definition rate_limited : World :=
  {| ingest := fun _ _ => Rejected (JS.Plain (JSON.Str "rate limited"));
     ISOString_on_entry := midnight;
     ISOString_on_resume := "2025-01-01T00:00:01.250Z" |}.

(** A collaborator that succeeds; the callback resumes at [instant]. *)
Definition working (instant : string) : World :=
  {| ingest := fun _ _ =>
                 Resolved ("Repository: octocat/Hello-World",
                           "Hello-World/" ++ JSON.newline ++ "  README",
                           "Hello World!");
     ISOString_on_entry := midnight;
     ISOString_on_resume := instant |}.

Definition morning : string := "2025-01-01T08:00:00.000Z".
Definition evening : string := "2025-01-01T20:00:00.000Z".

Definition ingest_everything : ingest_github_repo.args :=
  {| ingest_github_repo.repo_url := hello_world;
     ingest_github_repo.include_patterns := None;
     ingest_github_repo.exclude_patterns := None;
     ingest_github_repo.max_file_size := None |}.

Definition ingest_python_capped : ingest_github_repo.args :=
  {| ingest_github_repo.repo_url := hello_world;
     ingest_github_repo.include_patterns := Some ["*.py"];
     ingest_github_repo.exclude_patterns := Some ["tests/*"; "*.log"];
     ingest_github_repo.max_file_size := Some (JSON.integer 4096) |}.

Definition ingest_zero_size : ingest_github_repo.args :=
  {| ingest_github_repo.repo_url := hello_world;
     ingest_github_repo.include_patterns := None;
     ingest_github_repo.exclude_patterns := None;
     ingest_github_repo.max_file_size := Some (JSON.Zero false) |}.

Definition analyze_rust : analyze_code_files.args :=
  {| analyze_code_files.repo_url := hello_world;
     analyze_code_files.language := analyze_code_files.rust |}.

Definition ruby_arguments : JSON.object :=
  [ ("repo_url", JSON.Str hello_world); ("language", JSON.Str "ruby") ].

End Examples.

(* ================================================================== *)
(** ** Measures and invariants used by the proofs *)

(** Number of nodes of a document: the fuel its parse needs. *)
Fixpoint size (v : JSON.value) : nat :=
  match v with
  | JSON.Array items =>
      S ((fix total (xs : list JSON.value) : nat :=
            match xs with
            | [] => 0
            | x :: xs' => size x + total xs'
            end) items)
  | JSON.Object props =>
      S ((fix total (ps : list (string * JSON.value)) : nat :=
            match ps with
            | [] => 0
            | (_, x) :: ps' => size x + total ps'
            end) props)
  | _ => 1
  end.

Definition sizes (xs : list JSON.value) : nat :=
  fold_right (fun x n => size x + n) 0 xs.

(** One [key: value] line of a printed object. *)
Definition member_text (indent : string) (p : string * JSON.value) : string :=
  JSON.quote (fst p) ++ ": " ++ JSON.stringify_at indent (snd p).

(** The first character of a printed number: a digit or a minus sign. *)
Definition is_numeral (c : ascii) : bool :=
  let n := nat_of_ascii c in
  Nat.eqb n 45 || (Nat.leb 48 n && Nat.leb n 57).

(** What may follow a printed number: not a digit, a point or an [e]. *)
Definition continues_number (c : ascii) : bool :=
  let n := nat_of_ascii c in
  (Nat.leb 48 n && Nat.leb n 57) || Nat.eqb n 46 || Nat.eqb n 101
  || Nat.eqb n 69.

(** What may follow a run of digits: not a digit. *)
Definition digit_free (rest : string) : Prop :=
  match rest with
  | EmptyString => True
  | String c _ => Reader.digit_of c = None
  end.

Definition numeral_free (rest : string) : Prop :=
  match rest with
  | EmptyString => True
  | String c _ => continues_number c = false
  end.

(** An indentation string: the reader skips it. *)
Definition blank (ind : string) : Prop :=
  forall s, Reader.skip_ws (ind ++ s) = Reader.skip_ws s.

(** The first character of a printed value is neither white space nor a
    closing bracket. *)
Definition opens (s : string) : Prop :=
  match s with
  | EmptyString => False
  | String c _ =>
      Reader.is_ws c = false /\ Nat.eqb (nat_of_ascii c) 93 = false
  end.

(** With fuel [f] the reader recovers every document of size at most [f]
    from its printed text, whatever follows it. *)
Definition reads (f : nat) : Prop :=
  forall v ind rest,
    size v <= f -> blank ind -> numeral_free rest ->
    Reader.parse_value f (JSON.stringify_at ind v ++ rest)
    = Some (JSON.rendered v, rest).

(* ================================================================== *)
(** ** Further concrete inputs and the vocabulary of the wiring property *)

Module MoreExamples.

(** A collaborator that raises [new Error("rate limited")], seen later. *)
Definition rate_limited_error : World :=
  {| ingest := fun _ _ =>
                 Rejected (JS.ErrorInstance (Some (JSON.Str "rate limited")));
     ISOString_on_entry := "2025-06-30T23:59:58.000Z";
     ISOString_on_resume := "2025-06-30T23:59:59.999Z" |}.

(** A collaborator that raises [Object.create(null)]. *)
Definition bare_object_failure : World :=
  {| ingest := fun _ _ => Rejected (JS.NoPrototype []);
     ISOString_on_entry := Examples.midnight;
     ISOString_on_resume := "2025-01-01T00:00:01.250Z" |}.

(** A collaborator that raises [{ toString: null }]. *)
Definition own_toString_failure : World :=
  {| ingest := fun _ _ =>
                 Rejected (JS.Plain (JSON.Object [ ("toString", JSON.Null) ]));
     ISOString_on_entry := Examples.midnight;
     ISOString_on_resume := "2025-01-01T00:00:01.250Z" |}.

(** A collaborator that raises an [Error] whose [message] is [undefined]. *)
Definition undefined_message_failure : World :=
  {| ingest := fun _ _ => Rejected (JS.ErrorInstance None);
     ISOString_on_entry := Examples.midnight;
     ISOString_on_resume := "2025-01-01T00:00:01.250Z" |}.

(** A call whose [max_file_size] is [Infinity], as the argument text
    [1e999] parses. *)
Definition ingest_unbounded : ingest_github_repo.args :=
  {| ingest_github_repo.repo_url := Examples.hello_world;
     ingest_github_repo.include_patterns := None;
     ingest_github_repo.exclude_patterns := None;
     ingest_github_repo.max_file_size := Some (JSON.Infinity false) |}.

(** A collaborator whose texts hold a quote, a backslash and a line break. *)
Definition quoting : World :=
  {| ingest := fun _ _ =>
                 Resolved ("say " ++ JSON.dquote ++ "hi" ++ JSON.dquote,
                           "a\b",
                           "line 1" ++ JSON.newline ++ "line 2");
     ISOString_on_entry := Examples.midnight;
     ISOString_on_resume := "2025-01-01T00:00:01.250Z" |}.

Definition docs_of_hello_world : get_repo_docs.args :=
  {| get_repo_docs.repo_url := Examples.hello_world |}.

Definition analyze_typescript : analyze_code_files.args :=
  {| analyze_code_files.repo_url := Examples.hello_world;
     analyze_code_files.language := analyze_code_files.typescript |}.

(** Raw arguments with a key no shape lists. *)
Definition typescript_arguments : JSON.object :=
  [ ("verbose", JSON.Bool true);
    ("language", JSON.Str "typescript");
    ("repo_url", JSON.Str Examples.hello_world) ].

(** Raw arguments whose [repo_url] is [null]. *)
Definition null_repo_url : JSON.object :=
  [ ("repo_url", JSON.Null); ("language", JSON.Str "python") ].

(** Raw arguments with a zero size and an empty include list. *)
Definition zero_and_empty : JSON.object :=
  [ ("repo_url", JSON.Str Examples.hello_world);
    ("include_patterns", JSON.Array []);
    ("max_file_size", JSON.Number (JSON.Zero false)) ].

Definition zero_and_empty_args : ingest_github_repo.args :=
  {| ingest_github_repo.repo_url := Examples.hello_world;
     ingest_github_repo.include_patterns := Some [];
     ingest_github_repo.exclude_patterns := None;
     ingest_github_repo.max_file_size := Some (JSON.Zero false) |}.

End MoreExamples.

(** The raw arguments [raw] are accepted by the shape registered for the
    tool of [c], and parse to the arguments of [c]. *)
Definition accepted_as (raw : JSON.object) (c : GitIngestMCP.ToolCall) : Prop :=
  match c with
  | GitIngestMCP.IngestGithubRepo a => ingest_github_repo.inputSchema raw = Some a
  | GitIngestMCP.GetRepoStructure a => get_repo_structure.inputSchema raw = Some a
  | GitIngestMCP.AnalyzeCodeFiles a => analyze_code_files.inputSchema raw = Some a
  | GitIngestMCP.GetRepoDocs a => get_repo_docs.inputSchema raw = Some a
  end.

(* ================================================================== *)
(** * Properties *)

(** ** The reader inverts the printer *)

Lemma append_assoc (a b c : string) : ((a ++ b) ++ c = a ++ (b ++ c))%string.
Proof. induction a as [|x a IH]; simpl; [reflexivity | now rewrite IH]. Qed.

Lemma length_append (a b : string) :
  String.length (a ++ b) = String.length a + String.length b.
Proof. induction a as [|x a IH]; simpl; [reflexivity | now rewrite IH]. Qed.

Lemma parse_chars_escape (c : ascii) (tail : string) :
  Reader.parse_chars (JSON.escape c ++ tail)
  = Reader.prepend c (Reader.parse_chars tail).
Proof.
  destruct c as [[] [] [] [] [] [] [] []]; reflexivity.
Qed.

Lemma parse_chars_quoted (s rest : string) :
  Reader.parse_chars (JSON.escape_all s ++ JSON.dquote ++ rest) = Some (s, rest).
Proof.
  induction s as [|c s IH].
  - reflexivity.
  - change (JSON.escape_all (String c s)) with (JSON.escape c ++ JSON.escape_all s).
    rewrite append_assoc, parse_chars_escape, IH. reflexivity.
Qed.

(** *** Digits *)

Lemma digit_of_char (d : JSON.digit) :
  Reader.digit_of (JSON.digit_char d) = Some d.
Proof. destruct d; reflexivity. Qed.

Lemma numeral_free_digit_free (rest : string) :
  numeral_free rest -> digit_free rest.
Proof.
  destruct rest as [|c r]; [trivial|]. cbn.
  destruct c as [[] [] [] [] [] [] [] []]; intros H;
    try discriminate H; reflexivity.
Qed.

Lemma span_digits_text (ds : list JSON.digit) (rest : string) :
  digit_free rest ->
  Reader.span_digits (JSON.digits_text ds ++ rest) = (ds, rest).
Proof.
  intros Hrest. induction ds as [|d ds IH].
  - destruct rest as [|c r]; [reflexivity|]. cbn in *. now rewrite Hrest.
  - cbn [JSON.digits_text String.append Reader.span_digits].
    now rewrite digit_of_char, IH.
Qed.

Lemma digits_uint_digits (u : Decimal.uint) :
  Reader.digits_uint (JSON.uint_digits u) = u.
Proof. induction u; cbn; now rewrite ?IHu. Qed.

Lemma uint_digits_nonempty (u : Decimal.uint) :
  u <> Decimal.Nil -> JSON.uint_digits u <> [].
Proof. destruct u; intros H; [contradiction | discriminate ..]. Qed.

Lemma decimal_nonempty (z : Z) : JSON.decimal z <> [].
Proof.
  destruct z as [|p|p]; cbn; [discriminate | |];
    apply uint_digits_nonempty, DecimalPos.Unsigned.to_uint_nonnil.
Qed.

Lemma digits_value_decimal (z : Z) :
  Reader.digits_value (JSON.decimal z) = Z.abs z.
Proof.
  unfold Reader.digits_value.
  destruct z as [|p|p]; cbn [JSON.decimal Z.abs]; [reflexivity | |];
    rewrite digits_uint_digits; unfold Z.of_uint;
    now rewrite DecimalPos.Unsigned.of_to.
Qed.

(** *** Significant digits *)

Lemma trim_zeros (j : nat) : JSON.trim (JSON.zeros j) = ([], j).
Proof. induction j as [|j IH]; cbn; [reflexivity | now rewrite IH]. Qed.

Lemma trim_app_zeros (ds : list JSON.digit) (j : nat) :
  JSON.trim (ds ++ JSON.zeros j)
  = (fst (JSON.trim ds), snd (JSON.trim ds) + j).
Proof.
  induction ds as [|d ds IH].
  - cbn. apply trim_zeros.
  - cbn [app JSON.trim]. rewrite IH.
    destruct (JSON.trim ds) as [[|a r] i]; destruct d; reflexivity.
Qed.

Lemma trim_ends_nonzero (m : list JSON.digit) (l : JSON.nonzero) :
  JSON.trim (m ++ [JSON.plain l]) = ((m ++ [JSON.plain l])%list, 0).
Proof.
  induction m as [|a m IH].
  - destruct l; reflexivity.
  - cbn [app JSON.trim]. rewrite IH.
    destruct (m ++ [JSON.plain l])%list eqn:E.
    + destruct m; discriminate E.
    + destruct a; reflexivity.
Qed.

Lemma trim_digits (s : JSON.significand) :
  JSON.trim (JSON.digits s) = (JSON.digits s, 0).
Proof.
  destruct s as [d|f m l].
  - destruct d; reflexivity.
  - cbn [JSON.digits JSON.trim]. rewrite trim_ends_nonzero.
    destruct (m ++ [JSON.plain l])%list eqn:E.
    + destruct m; discriminate E.
    + destruct f; reflexivity.
Qed.

Lemma drop_zeros_digits (s : JSON.significand) (tail : list JSON.digit) :
  JSON.drop_zeros (JSON.digits s ++ tail) = (JSON.digits s ++ tail)%list.
Proof. destruct s as [d|f m l]; [destruct d | destruct f]; reflexivity. Qed.

Lemma drop_zeros_zeros (j : nat) (ds : list JSON.digit) :
  JSON.drop_zeros (JSON.zeros j ++ ds) = JSON.drop_zeros ds.
Proof. induction j as [|j IH]; [reflexivity | exact IH]. Qed.

Lemma nonzero_of_plain (d : JSON.nonzero) :
  JSON.nonzero_of (JSON.plain d) = Some d.
Proof. destruct d; reflexivity. Qed.

Lemma significand_of_digits (s : JSON.significand) :
  JSON.significand_of (JSON.digits s) = Some s.
Proof.
  destruct s as [d|f m l]; cbn [JSON.digits JSON.significand_of].
  - now rewrite nonzero_of_plain.
  - rewrite nonzero_of_plain.
    destruct (m ++ [JSON.plain l])%list eqn:E.
    + destruct m; discriminate E.
    + rewrite <- E, last_last, removelast_last, nonzero_of_plain.
      reflexivity.
Qed.

Lemma digits_nonempty (s : JSON.significand) : JSON.digits s <> [].
Proof. destruct s; discriminate. Qed.

(** Trailing zeros add to the exponent, leading zeros do not count. *)
Lemma of_digits_padded (negative : bool) (s : JSON.significand)
  (i j : nat) (e : Z) :
  JSON.of_digits negative (JSON.zeros i ++ JSON.digits s ++ JSON.zeros j) e
  = JSON.Finite negative s (e + Z.of_nat j).
Proof.
  unfold JSON.of_digits.
  rewrite drop_zeros_zeros, drop_zeros_digits, trim_app_zeros, trim_digits.
  cbn [fst snd]. now rewrite significand_of_digits.
Qed.

(** *** The parts of a number *)

Lemma parse_fraction_absent (rest : string) :
  numeral_free rest -> Reader.parse_fraction rest = Some ([], rest).
Proof.
  destruct rest as [|c r]; [reflexivity|]. cbn.
  destruct c as [[] [] [] [] [] [] [] []]; intros H;
    try discriminate H; reflexivity.
Qed.

Lemma parse_exponent_absent (rest : string) :
  numeral_free rest -> Reader.parse_exponent_part rest = Some (0%Z, rest).
Proof.
  destruct rest as [|c r]; [reflexivity|]. cbn.
  destruct c as [[] [] [] [] [] [] [] []]; intros H;
    try discriminate H; reflexivity.
Qed.

Lemma parse_fraction_digits (ds : list JSON.digit) (rest : string) :
  ds <> [] -> digit_free rest ->
  Reader.parse_fraction ("." ++ JSON.digits_text ds ++ rest) = Some (ds, rest).
Proof.
  intros Hne Hrest. cbn [String.append Reader.parse_fraction].
  change (nat_of_ascii "." =? 46)%nat with true. cbv iota.
  rewrite span_digits_text by exact Hrest.
  destruct ds; [contradiction | reflexivity].
Qed.

Lemma parse_exponent_printed (e : Z) (rest : string) :
  digit_free rest ->
  Reader.parse_exponent_part
    ("e" ++ (if (e <? 0)%Z then "-" else "+")
     ++ JSON.digits_text (JSON.decimal e) ++ rest)
  = Some (e, rest).
Proof.
  intros Hrest. cbn [String.append Reader.parse_exponent_part].
  change (nat_of_ascii "e" =? 101)%nat with true. cbn [orb].
  unfold Reader.parse_exponent.
  pose proof (decimal_nonempty e) as Hne.
  pose proof (digits_value_decimal e) as Hv.
  destruct (Z.ltb_spec e 0) as [Hneg|Hpos]; cbn [String.append].
  - change (nat_of_ascii "-" =? 45)%nat with true. cbv iota.
    rewrite span_digits_text by exact Hrest.
    destruct (JSON.decimal e) eqn:E; [contradiction|].
    rewrite Hv. f_equal. f_equal. lia.
  - change (nat_of_ascii "+" =? 45)%nat with false.
    change (nat_of_ascii "+" =? 43)%nat with true. cbv iota.
    rewrite span_digits_text by exact Hrest.
    destruct (JSON.decimal e) eqn:E; [contradiction|].
    rewrite Hv. f_equal. f_equal. lia.
Qed.

Lemma digit_free_point (s : string) : digit_free ("." ++ s).
Proof. reflexivity. Qed.

Lemma digit_free_e (s : string) : digit_free ("e" ++ s).
Proof. reflexivity. Qed.

Lemma parse_fraction_before_e (s : string) :
  Reader.parse_fraction ("e" ++ s) = Some ([], "e" ++ s).
Proof. reflexivity. Qed.

Lemma digits_text_app (a b : list JSON.digit) :
  JSON.digits_text (a ++ b) = JSON.digits_text a ++ JSON.digits_text b.
Proof. induction a as [|d a IH]; cbn; [reflexivity | now rewrite IH]. Qed.

Lemma zeros_length (j : nat) : List.length (JSON.zeros j) = j.
Proof. induction j as [|j IH]; cbn; [reflexivity | now rewrite IH]. Qed.

(** *** A printed number reads back *)

Lemma parse_magnitude_format (negative : bool) (s : JSON.significand)
  (e : Z) (rest : string) :
  numeral_free rest ->
  Reader.parse_magnitude negative
    (JSON.format (JSON.digits s) (Z.of_nat (List.length (JSON.digits s)) + e)
     ++ rest)
  = Some (JSON.Finite negative s e, rest).
Proof.
  intros Hrest.
  pose proof (numeral_free_digit_free rest Hrest) as Hdf.
  pose proof (digits_nonempty s) as Hne.
  assert (Ptail : forall j e', JSON.of_digits negative
                                 (JSON.digits s ++ JSON.zeros j) e'
                               = JSON.Finite negative s (e' + Z.of_nat j)).
  { intros j e'. exact (of_digits_padded negative s 0 j e'). }
  assert (Plead : forall i e', JSON.of_digits negative
                                 (JSON.zeros i ++ JSON.digits s) e'
                               = JSON.Finite negative s (e' + 0)).
  { intros i e'. pose proof (of_digits_padded negative s i 0 e') as P.
    cbn [JSON.zeros] in P. now rewrite app_nil_r in P. }
  assert (P : forall e', JSON.of_digits negative (JSON.digits s) e'
                         = JSON.Finite negative s (e' + 0)).
  { intros e'. exact (Plead 0 e'). }
  unfold JSON.format, Reader.parse_magnitude.
  set (ds := JSON.digits s) in *.
  set (k := Z.of_nat (List.length ds)).
  assert (Hk : (1 <= k)%Z).
  { subst k. destruct ds; [contradiction | cbn [List.length]; lia]. }
  destruct ((k <=? k + e)%Z && (k + e <=? 21)%Z) eqn:B1.
  { (* digits followed by zeros *)
    apply andb_prop in B1 as [B1 _]. apply Z.leb_le in B1.
    rewrite span_digits_text by exact Hdf.
    rewrite parse_fraction_absent, parse_exponent_absent by exact Hrest.
    destruct (ds ++ JSON.zeros (Z.to_nat (k + e - k)))%list eqn:E.
    { destruct ds; [contradiction | discriminate E]. }
    rewrite <- E, app_nil_r.
    rewrite Ptail. f_equal. f_equal. f_equal.
    cbn [List.length]. lia. }
  destruct ((0 <? k + e)%Z && (k + e <=? 21)%Z) eqn:B2.
  { (* a point inside the digits *)
    apply andb_prop in B2 as [B2 B2']. apply Z.ltb_lt in B2.
    apply Z.leb_le in B2'.
    assert (Hlt : (k + e < k)%Z).
    { apply andb_false_iff in B1 as [B1|B1]; apply Z.leb_gt in B1; lia. }
    rewrite !append_assoc.
    rewrite span_digits_text by apply digit_free_point.
    assert (Hf : firstn (Z.to_nat (k + e)) ds <> []).
    { destruct ds as [|d ds']; [contradiction|].
      destruct (Z.to_nat (k + e)) eqn:En; [lia | discriminate]. }
    assert (Hs : skipn (Z.to_nat (k + e)) ds <> []).
    { intros Es. apply (f_equal (@List.length _)) in Es.
      rewrite length_skipn in Es. cbn in Es. lia. }
    rewrite parse_fraction_digits by (exact Hs || exact Hdf).
    rewrite parse_exponent_absent by exact Hrest.
    destruct (firstn (Z.to_nat (k + e)) ds) eqn:E; [contradiction|].
    rewrite <- E, firstn_skipn.
    rewrite P. f_equal. f_equal. f_equal.
    rewrite length_skipn. fold k. lia. }
  destruct ((-6 <? k + e)%Z && (k + e <=? 0)%Z) eqn:B3.
  { (* zero, point, zeros, digits *)
    apply andb_prop in B3 as [_ B3]. apply Z.leb_le in B3.
    change ("0." ++ ?t) with (JSON.digits_text [JSON.d0] ++ "." ++ t).
    rewrite !append_assoc.
    rewrite span_digits_text by apply digit_free_point.
    assert (Hz : (JSON.zeros (Z.to_nat (- (k + e))) ++ ds)%list <> []).
    { destruct (JSON.zeros (Z.to_nat (- (k + e))));
        [exact Hne | discriminate]. }
    rewrite parse_fraction_digits by (exact Hz || exact Hdf).
    rewrite parse_exponent_absent by exact Hrest.
    change ([JSON.d0] ++ JSON.zeros ?i ++ ds)%list
      with (JSON.zeros (S i) ++ ds)%list.
    rewrite Plead. f_equal. f_equal. f_equal.
    rewrite length_app, zeros_length. fold k. lia. }
  (* exponent form *)
  destruct ds as [|d [|d' tail]] eqn:Eds; [contradiction | |].
  - rewrite !append_assoc.
    rewrite span_digits_text by apply digit_free_e.
    rewrite parse_fraction_before_e.
    rewrite parse_exponent_printed by exact Hdf.
    cbn [app]. rewrite P. f_equal. f_equal. f_equal.
    subst k. cbn [List.length]. lia.
  - rewrite !append_assoc.
    rewrite span_digits_text by apply digit_free_point.
    rewrite parse_fraction_digits by (discriminate || apply digit_free_e).
    rewrite parse_exponent_printed by exact Hdf.
    cbn [app]. rewrite P. f_equal. f_equal. f_equal.
    subst k. cbn [List.length]. lia.
Qed.

Lemma format_head (s : JSON.significand) (n : Z) :
  exists d t, JSON.format (JSON.digits s) n = String (JSON.digit_char d) t.
Proof.
  unfold JSON.format.
  pose proof (digits_nonempty s) as Hne.
  destruct (JSON.digits s) as [|d ds] eqn:E; [contradiction|].
  destruct ((Z.of_nat (List.length (d :: ds)) <=? n)%Z && (n <=? 21)%Z);
    [eexists; eexists; reflexivity|].
  destruct ((0 <? n)%Z && (n <=? 21)%Z) eqn:B.
  { apply andb_prop in B as [B _]. apply Z.ltb_lt in B.
    destruct (Z.to_nat n) eqn:En; [lia|]. eexists; eexists; reflexivity. }
  destruct ((-6 <? n)%Z && (n <=? 0)%Z);
    [exists JSON.d0; eexists; reflexivity|].
  destruct ds; eexists; eexists; reflexivity.
Qed.

Lemma digit_char_not_minus (d : JSON.digit) :
  (nat_of_ascii (JSON.digit_char d) =? 45)%nat = false.
Proof. destruct d; reflexivity. Qed.

Lemma digit_char_numeral (d : JSON.digit) :
  is_numeral (JSON.digit_char d) = true.
Proof. destruct d; reflexivity. Qed.

(** A number of the document, read back: what was printed as a number. *)
Lemma parse_number_text (x : JSON.number) (rest : string) :
  numeral_free rest ->
  (forall negative, x <> JSON.Infinity negative) ->
  exists x',
    Reader.parse_number (JSON.number_json x ++ rest) = Some (x', rest)
    /\ JSON.rendered (JSON.Number x) = JSON.Number x'.
Proof.
  intros Hrest Hfin.
  destruct x as [b|b|negative s e].
  - exfalso. exact (Hfin b eq_refl).
  - exists (JSON.Zero false). split; [|reflexivity].
    cbn [JSON.number_json JSON.number_text String.append Reader.parse_number].
    change (nat_of_ascii "0" =? 45)%nat with false. cbv iota.
    pose proof (span_digits_text [JSON.d0] rest
                  (numeral_free_digit_free rest Hrest)) as Hs.
    cbn [JSON.digits_text String.append JSON.digit_char] in Hs.
    unfold Reader.parse_magnitude. rewrite Hs.
    rewrite parse_fraction_absent, parse_exponent_absent by exact Hrest.
    reflexivity.
  - exists (JSON.Finite negative s e). split; [|reflexivity].
    cbn [JSON.number_json JSON.number_text].
    destruct negative.
    + cbn [String.append Reader.parse_number].
      change (nat_of_ascii "-" =? 45)%nat with true. cbv iota.
      apply parse_magnitude_format. exact Hrest.
    + change ("" ++ ?t) with t.
      pose proof (parse_magnitude_format false s e rest Hrest) as P.
      destruct (format_head s (Z.of_nat (List.length (JSON.digits s)) + e))
        as [d [t E]].
      rewrite E in *. cbn [String.append Reader.parse_number] in *.
      rewrite digit_char_not_minus. exact P.
Qed.

Lemma number_head (x : JSON.number) :
  exists c t, JSON.number_json x = String c t
              /\ (is_numeral c = true \/ JSON.number_json x = "null").
Proof.
  destruct x as [b|b|negative s e].
  - eexists; eexists; split; [reflexivity | right; reflexivity].
  - eexists; eexists; split; [reflexivity | left; reflexivity].
  - cbn [JSON.number_json JSON.number_text].
    destruct negative.
    + eexists; eexists; split; [reflexivity | left; reflexivity].
    + destruct (format_head s (Z.of_nat (List.length (JSON.digits s)) + e))
        as [d [t E]].
      exists (JSON.digit_char d), t. change ("" ++ ?u) with u.
      split; [exact E | left; apply digit_char_numeral].
Qed.

(** *** Documents *)

Lemma size_array (items : list JSON.value) :
  size (JSON.Array items) = S (sizes items).
Proof.
  reflexivity.
Qed.

Lemma size_object (props : JSON.object) :
  size (JSON.Object props) = S (sizes (map snd props)).
Proof.
  simpl. f_equal. induction props as [|[k x] ps IH]; simpl; [reflexivity | now rewrite IH].
Qed.

Lemma size_pos (v : JSON.value) : 1 <= size v.
Proof. destruct v; simpl; lia. Qed.

Lemma stringify_at_array (indent : string) (x : JSON.value) (xs : list JSON.value) :
  JSON.stringify_at indent (JSON.Array (x :: xs))
  = "[" ++ JSON.newline ++ (indent ++ "  ")
    ++ String.concat ("," ++ JSON.newline ++ (indent ++ "  "))
         (map (JSON.stringify_at (indent ++ "  ")) (x :: xs))
    ++ JSON.newline ++ indent ++ "]".
Proof.
  reflexivity.
Qed.

Lemma stringify_at_object (indent : string) (p : string * JSON.value)
  (ps : JSON.object) :
  JSON.stringify_at indent (JSON.Object (p :: ps))
  = "{" ++ JSON.newline ++ (indent ++ "  ")
    ++ String.concat ("," ++ JSON.newline ++ (indent ++ "  "))
         (map (member_text (indent ++ "  ")) (p :: ps))
    ++ JSON.newline ++ indent ++ "}".
Proof.
  assert (E : forall l,
             (fix each (ps : list (string * JSON.value)) : list string :=
                match ps with
                | [] => []
                | (k, x) :: ps' =>
                    (JSON.quote k ++ ": "
                     ++ JSON.stringify_at (indent ++ "  ") x) :: each ps'
                end) l = map (member_text (indent ++ "  ")) l).
  { induction l as [|[k y] l IH]; [reflexivity|].
    cbn [map]. rewrite <- IH. reflexivity. }
  destruct p as [k x]. rewrite <- E. reflexivity.
Qed.

Lemma blank_nil : blank "".
Proof. intros s. reflexivity. Qed.

Lemma blank_step (ind : string) : blank ind -> blank (ind ++ "  ").
Proof. intros H s. rewrite append_assoc, H. reflexivity. Qed.

Lemma blank_newline (ind : string) : blank ind -> blank (JSON.newline ++ ind).
Proof. intros H s. rewrite append_assoc. cbn. apply H. Qed.

Lemma skip_ws_idem (s : string) :
  Reader.skip_ws (Reader.skip_ws s) = Reader.skip_ws s.
Proof.
  induction s as [|c s IH]; [reflexivity|].
  simpl. destruct (Reader.is_ws c) eqn:E; [exact IH|].
  simpl. now rewrite E.
Qed.

Lemma parse_value_skip (f : nat) (s : string) :
  Reader.parse_value f s = Reader.parse_value f (Reader.skip_ws s).
Proof. destruct f; [reflexivity|]. simpl. now rewrite skip_ws_idem. Qed.

Lemma parse_value_blank (f : nat) (lead s : string) :
  blank lead -> Reader.parse_value f (lead ++ s) = Reader.parse_value f s.
Proof.
  intros H. rewrite parse_value_skip, H, <- parse_value_skip. reflexivity.
Qed.

Lemma parse_value_numeral (f : nat) (c : ascii) (t : string) :
  is_numeral c = true ->
  Reader.parse_value (S f) (String c t)
  = match Reader.parse_number (String c t) with
    | Some (z, r) => Some (JSON.Number z, r)
    | None => None
    end.
Proof.
  destruct c as [[] [] [] [] [] [] [] []]; intros H; try discriminate H;
    reflexivity.
Qed.

Lemma numeral_opens (c : ascii) (t : string) :
  is_numeral c = true -> opens (String c t).
Proof.
  destruct c as [[] [] [] [] [] [] [] []]; intros H; try discriminate H;
    split; reflexivity.
Qed.

Lemma stringify_at_opens (ind : string) (v : JSON.value) (rest : string) :
  opens (JSON.stringify_at ind v ++ rest).
Proof.
  destruct v as [|[]|n|s|[|x xs]|[|p ps]]; try (split; reflexivity).
  destruct (number_head n) as [c [t [E [H|H]]]]; cbn [JSON.stringify_at].
  - rewrite E. apply (numeral_opens _ _ H).
  - rewrite H. split; reflexivity.
Qed.

Lemma rendered_array (items : list JSON.value) :
  JSON.rendered (JSON.Array items) = JSON.Array (map JSON.rendered items).
Proof. reflexivity. Qed.

Lemma rendered_object (props : JSON.object) :
  JSON.rendered (JSON.Object props)
  = JSON.Object (map (fun p => (fst p, JSON.rendered (snd p))) props).
Proof.
  cbn [JSON.rendered]. f_equal.
  induction props as [|[k x] ps IH]; cbn [map fst snd];
    [reflexivity | now rewrite IH].
Qed.

Lemma skip_ws_opens (s : string) : opens s -> Reader.skip_ws s = s.
Proof.
  destruct s as [|c s]; [intros []|]. intros [H _]. simpl. now rewrite H.
Qed.

Lemma skip_ws_cons (c : ascii) (s : string) :
  Reader.is_ws c = false -> Reader.skip_ws (String c s) = String c s.
Proof. intros H. simpl. now rewrite H. Qed.

Lemma skip_newline (ind s : string) :
  blank ind -> Reader.skip_ws (JSON.newline ++ ind ++ s) = Reader.skip_ws s.
Proof. intros H. cbn. apply H. Qed.

Lemma parse_items_stringify (f : nat) (IH : reads f)
  (ind stepback rest : string) :
  blank ind -> blank stepback ->
  forall items n lead,
    items <> [] -> sizes items <= f -> length items <= n -> blank lead ->
    Reader.parse_items (Reader.parse_value f) n
      (lead ++ String.concat ("," ++ JSON.newline ++ ind)
                 (map (JSON.stringify_at ind) items)
       ++ JSON.newline ++ stepback ++ "]" ++ rest)
    = Some (map JSON.rendered items, rest).
Proof.
  intros Hind Hstep.
  induction items as [|x xs IHx]; intros n lead Hne Hsz Hlen Hlead;
    [contradiction|].
  destruct n as [|n]; [simpl in Hlen; lia|].
  cbn [Reader.parse_items]. rewrite parse_value_blank by exact Hlead.
  cbn [sizes fold_right] in Hsz. fold (sizes xs) in Hsz.
  destruct xs as [|y ys].
  - cbn [map String.concat].
    rewrite IH; [|lia|exact Hind|reflexivity].
    rewrite skip_newline by exact Hstep. reflexivity.
  - change (String.concat ("," ++ JSON.newline ++ ind)
              (map (JSON.stringify_at ind) (x :: y :: ys)))
      with (JSON.stringify_at ind x ++ ("," ++ JSON.newline ++ ind)
            ++ String.concat ("," ++ JSON.newline ++ ind)
                 (map (JSON.stringify_at ind) (y :: ys))).
    rewrite !append_assoc.
    rewrite IH; [|lia|exact Hind|reflexivity].
    remember (JSON.newline ++ ind ++
              String.concat ("," ++ JSON.newline ++ ind)
                (map (JSON.stringify_at ind) (y :: ys)) ++
              JSON.newline ++ stepback ++ "]" ++ rest) as tail eqn:Etail.
    change ("," ++ tail) with (String "," tail).
    rewrite skip_ws_cons by reflexivity.
    change (nat_of_ascii "," =? 44)%nat with true. cbv iota.
    subst tail. rewrite <- (@append_assoc JSON.newline ind).
    rewrite IHx;
      [reflexivity | discriminate | lia | simpl in Hlen |- *; lia
      | apply blank_newline; exact Hind].
Qed.

Lemma parse_member (f : nat) (IH : reads f) (n : nat)
  (lead ind tail k : string) (x : JSON.value) :
  blank lead -> blank ind -> size x <= f -> numeral_free tail ->
  Reader.parse_members (Reader.parse_value f) (S n)
    (lead ++ member_text ind (k, x) ++ tail)
  = match Reader.skip_ws tail with
    | String c r4 =>
        if Nat.eqb (nat_of_ascii c) 44 then
          match Reader.parse_members (Reader.parse_value f) n r4 with
          | Some (ps, r5) => Some ((k, JSON.rendered x) :: ps, r5)
          | None => None
          end
        else if Nat.eqb (nat_of_ascii c) 125
        then Some ([(k, JSON.rendered x)], r4)
        else None
    | EmptyString => None
    end.
Proof.
  intros Hlead Hind Hsz Htail.
  cbn [Reader.parse_members]. rewrite Hlead.
  unfold member_text, JSON.quote. cbn [fst snd].
  rewrite !append_assoc.
  change (JSON.dquote ++ ?s) with (String (ascii_of_nat 34) s).
  rewrite skip_ws_cons by reflexivity.
  change (nat_of_ascii (ascii_of_nat 34) =? 34)%nat with true. cbv iota.
  rewrite parse_chars_quoted.
  change (": " ++ ?s) with (String ":" (" " ++ s)).
  rewrite skip_ws_cons by reflexivity.
  change (nat_of_ascii ":" =? 58)%nat with true. cbv iota.
  rewrite parse_value_blank by (intros s; reflexivity).
  rewrite IH by assumption.
  reflexivity.
Qed.

Lemma parse_members_stringify (f : nat) (IH : reads f)
  (ind stepback rest : string) :
  blank ind -> blank stepback ->
  forall props n lead,
    props <> [] -> sizes (map snd props) <= f -> length props <= n ->
    blank lead ->
    Reader.parse_members (Reader.parse_value f) n
      (lead ++ String.concat ("," ++ JSON.newline ++ ind)
                 (map (member_text ind) props)
       ++ JSON.newline ++ stepback ++ "}" ++ rest)
    = Some (map (fun p => (fst p, JSON.rendered (snd p))) props, rest).
Proof.
  intros Hind Hstep.
  induction props as [|[k x] ps IHp]; intros n lead Hne Hsz Hlen Hlead;
    [contradiction|].
  destruct n as [|n]; [simpl in Hlen; lia|].
  cbn [map snd sizes fold_right] in Hsz. fold (sizes (map snd ps)) in Hsz.
  destruct ps as [|q qs].
  - cbn [map String.concat].
    rewrite (parse_member f IH) by (assumption || lia || reflexivity).
    rewrite skip_newline by exact Hstep. reflexivity.
  - change (String.concat ("," ++ JSON.newline ++ ind)
              (map (member_text ind) ((k, x) :: q :: qs)))
      with (member_text ind (k, x) ++ ("," ++ JSON.newline ++ ind)
            ++ String.concat ("," ++ JSON.newline ++ ind)
                 (map (member_text ind) (q :: qs))).
    rewrite !append_assoc.
    rewrite (parse_member f IH) by (assumption || lia || reflexivity).
    remember (JSON.newline ++ ind ++
              String.concat ("," ++ JSON.newline ++ ind)
                (map (member_text ind) (q :: qs)) ++
              JSON.newline ++ stepback ++ "}" ++ rest) as tail eqn:Etail.
    change ("," ++ tail) with (String "," tail).
    rewrite skip_ws_cons by reflexivity.
    change (nat_of_ascii "," =? 44)%nat with true. cbv iota.
    subst tail. rewrite <- (@append_assoc JSON.newline ind).
    rewrite IHp;
      [reflexivity | discriminate | lia | simpl in Hlen |- *; lia
      | apply blank_newline; exact Hind].
Qed.

Lemma length_le_sizes (xs : list JSON.value) : length xs <= sizes xs.
Proof.
  induction xs as [|x xs IH]; simpl; [lia|].
  pose proof (size_pos x). fold (sizes xs). lia.
Qed.

Lemma concat_head {A} (sep : string) (f : A -> string) (x : A) (xs : list A) :
  exists r, String.concat sep (map f (x :: xs)) = f x ++ r.
Proof.
  destruct xs as [|y ys]; simpl.
  - exists "". induction (f x) as [|c s IHs]; simpl; [reflexivity | now rewrite <- IHs].
  - eexists. reflexivity.
Qed.

Lemma parse_value_stringify : forall f, reads f.
Proof.
  induction f as [|f IH]; intros v ind rest Hsz Hind Hrest.
  { pose proof (size_pos v). lia. }
  destruct v as [|[]|n|s|[|x xs]|[|p ps]]; try reflexivity.
  - (* numbers *)
    destruct n as [b|b|negative s e]; [reflexivity | |].
    + destruct (parse_number_text (JSON.Zero b) rest Hrest)
        as [x' [P R]]; [discriminate|].
      destruct (number_head (JSON.Zero b)) as [c [t [E [H|H]]]];
        [|discriminate H].
      cbn [JSON.stringify_at]. rewrite R.
      rewrite E in *.
      change (String c t ++ rest) with (String c (t ++ rest)) in *.
      rewrite (parse_value_numeral f c _ H), P. reflexivity.
    + destruct (parse_number_text (JSON.Finite negative s e) rest Hrest)
        as [x' [P R]]; [discriminate|].
      destruct (number_head (JSON.Finite negative s e))
        as [c [t [E [H|H]]]].
      2:{ exfalso. cbn [JSON.number_json JSON.number_text] in H.
          destruct negative; [discriminate H|].
          destruct (format_head s
                      (Z.of_nat (List.length (JSON.digits s)) + e))
            as [d [u Ed]].
          change ("" ++ ?y) with y in H. rewrite Ed in H.
          destruct d; discriminate H. }
      cbn [JSON.stringify_at]. rewrite R.
      rewrite E in *.
      change (String c t ++ rest) with (String c (t ++ rest)) in *.
      rewrite (parse_value_numeral f c _ H), P. reflexivity.
  - (* strings *)
    cbn [JSON.stringify_at]. unfold JSON.quote. rewrite !append_assoc.
    change (JSON.dquote ++ ?r) with (String (ascii_of_nat 34) r).
    cbn [Reader.parse_value]. rewrite skip_ws_cons by reflexivity.
    change (nat_of_ascii (ascii_of_nat 34) =? 34)%nat with true. cbv iota beta zeta.
    change (nat_of_ascii (ascii_of_nat 34) =? 34)%nat with true. cbv iota.
    rewrite parse_chars_quoted. reflexivity.
  - (* arrays *)
    rewrite size_array in Hsz.
    rewrite stringify_at_array, !append_assoc.
    change ("[" ++ ?r) with (String "[" r).
    cbn [Reader.parse_value]. rewrite skip_ws_cons by reflexivity.
    cbv beta zeta.
    change (nat_of_ascii "[" =? 34)%nat with false.
    change (nat_of_ascii "[" =? 91)%nat with true. cbv iota.
    pose proof (blank_step ind Hind) as Hind'.
    rewrite <- (append_assoc ind "  ").
    rewrite <- (append_assoc JSON.newline (ind ++ "  ")).
    pose proof (length_le_sizes (x :: xs)) as Hlen.
    rewrite (parse_items_stringify f IH (ind ++ "  ") ind rest Hind' Hind);
      [|discriminate|lia|lia|apply blank_newline; exact Hind'].
    rewrite (blank_newline _ Hind').
    destruct (concat_head ("," ++ JSON.newline ++ ind ++ "  ")
                (JSON.stringify_at (ind ++ "  ")) x xs) as [r Er].
    rewrite Er, append_assoc.
    pose proof (stringify_at_opens (ind ++ "  ") x
                  (r ++ JSON.newline ++ ind ++ "]" ++ rest)) as Hopen.
    rewrite skip_ws_opens by exact Hopen.
    destruct (JSON.stringify_at (ind ++ "  ") x ++
              r ++ JSON.newline ++ ind ++ "]" ++ rest) as [|c' r'];
      [destruct Hopen|].
    destruct Hopen as [_ ->]. reflexivity.
  - (* objects *)
    rewrite size_object in Hsz.
    rewrite stringify_at_object, !append_assoc.
    change ("{" ++ ?r) with (String "{" r).
    cbn [Reader.parse_value]. rewrite skip_ws_cons by reflexivity.
    cbv beta zeta.
    change (nat_of_ascii "{" =? 34)%nat with false.
    change (nat_of_ascii "{" =? 91)%nat with false.
    change (nat_of_ascii "{" =? 123)%nat with true. cbv iota.
    pose proof (blank_step ind Hind) as Hind'.
    rewrite <- (append_assoc ind "  ").
    rewrite <- (append_assoc JSON.newline (ind ++ "  ")).
    pose proof (length_le_sizes (map snd (p :: ps))) as Hlen.
    rewrite length_map in Hlen.
    rewrite (parse_members_stringify f IH (ind ++ "  ") ind rest Hind' Hind);
      [|discriminate|lia|lia|apply blank_newline; exact Hind'].
    rewrite (blank_newline _ Hind').
    destruct (concat_head ("," ++ JSON.newline ++ ind ++ "  ")
                (member_text (ind ++ "  ")) p ps) as [r Er].
    rewrite Er. unfold member_text at 1, JSON.quote. rewrite !append_assoc.
    rewrite rendered_object. reflexivity.
Qed.

Lemma length_concat_sizes (f : nat)
  (IH : forall v ind, size v <= f ->
                      size v <= String.length (JSON.stringify_at ind v))
  (sep ind : string) (xs : list JSON.value) :
  sizes xs <= f ->
  sizes xs <= String.length
                (String.concat sep (map (JSON.stringify_at ind) xs)).
Proof.
  induction xs as [|x xs IHx]; intros Hsz; [simpl; lia|].
  cbn [sizes fold_right] in Hsz. fold (sizes xs) in Hsz.
  cbn [sizes fold_right]. fold (sizes xs).
  pose proof (IH x ind ltac:(lia)) as Hx.
  destruct xs as [|y ys]; [simpl in *; lia|].
  change (String.concat sep (map (JSON.stringify_at ind) (x :: y :: ys)))
    with (JSON.stringify_at ind x ++ sep
          ++ String.concat sep (map (JSON.stringify_at ind) (y :: ys))).
  rewrite !length_append. specialize (IHx ltac:(lia)). lia.
Qed.

Lemma length_concat_members (f : nat)
  (IH : forall v ind, size v <= f ->
                      size v <= String.length (JSON.stringify_at ind v))
  (sep ind : string) (ps : JSON.object) :
  sizes (map snd ps) <= f ->
  sizes (map snd ps) <= String.length
                          (String.concat sep (map (member_text ind) ps)).
Proof.
  induction ps as [|[k x] ps IHp]; intros Hsz; [simpl; lia|].
  cbn [map snd sizes fold_right] in Hsz. fold (sizes (map snd ps)) in Hsz.
  change (sizes (map snd ((k, x) :: ps))) with (size x + sizes (map snd ps)).
  pose proof (IH x ind ltac:(lia)) as Hx.
  assert (Hm : size x <= String.length (member_text ind (k, x))).
  { unfold member_text. cbn [fst snd]. rewrite !length_append. lia. }
  destruct ps as [|q qs]; [simpl in *; lia|].
  change (String.concat sep (map (member_text ind) ((k, x) :: q :: qs)))
    with (member_text ind (k, x) ++ sep
          ++ String.concat sep (map (member_text ind) (q :: qs))).
  rewrite !length_append. specialize (IHp ltac:(lia)). lia.
Qed.

Lemma size_le_length : forall f v ind,
  size v <= f -> size v <= String.length (JSON.stringify_at ind v).
Proof.
  induction f as [|f IH]; intros v ind Hsz.
  { pose proof (size_pos v). lia. }
  destruct v as [|[]|n|s|[|x xs]|[|p ps]]; try (simpl; lia).
  - destruct (number_head n) as [c [t [E _]]].
    cbn [JSON.stringify_at size]. rewrite E. simpl. lia.
  - rewrite size_array in *. rewrite stringify_at_array, !length_append.
    pose proof (length_concat_sizes f IH
                  ("," ++ JSON.newline ++ ind ++ "  ") (ind ++ "  ")
                  (x :: xs) ltac:(lia)).
    simpl String.length at 1. lia.
  - rewrite size_object in *. rewrite stringify_at_object, !length_append.
    pose proof (length_concat_members f IH
                  ("," ++ JSON.newline ++ ind ++ "  ") (ind ++ "  ")
                  (p :: ps) ltac:(lia)).
    simpl String.length at 1. lia.
Qed.

Lemma append_empty (s : string) : s ++ "" = s.
Proof. induction s as [|c s IH]; simpl; [reflexivity | now rewrite IH]. Qed.

Theorem parse_stringify (v : JSON.value) :
  Reader.parse (JSON.stringify v) = Some (JSON.rendered v).
Proof.
  unfold Reader.parse, JSON.stringify.
  pose proof (parse_value_stringify (S (String.length (JSON.stringify_at "" v)))
                v "" "") as H.
  rewrite append_empty in H. rewrite H; [reflexivity| |exact blank_nil|exact I].
  pose proof (size_le_length (size v) v "" (le_n _)). lia.
Qed.


(** The format, on the smallest option object, on nested empties, on
    escapes and on numbers. *)
Example stringify_structure_options :
  JSON.stringify
    (JSON.Object [ ("max_file_size", JSON.Number (JSON.integer 1)) ])
  = "{" ++ JSON.newline
    ++ "  " ++ JSON.dquote ++ "max_file_size" ++ JSON.dquote ++ ": 1"
    ++ JSON.newline ++ "}".
Proof. reflexivity. Qed.

Example stringify_nested :
  JSON.stringify
    (JSON.Object [ ("a", JSON.Array [JSON.Object []; JSON.Array []]) ])
  = "{" ++ JSON.newline
    ++ "  " ++ JSON.dquote ++ "a" ++ JSON.dquote ++ ": [" ++ JSON.newline
    ++ "    {}," ++ JSON.newline
    ++ "    []" ++ JSON.newline
    ++ "  ]" ++ JSON.newline ++ "}".
Proof. reflexivity. Qed.

Example stringify_escapes :
  JSON.stringify (JSON.Str ("a" ++ JSON.newline ++ JSON.dquote ++ "\"))
  = JSON.dquote ++ "a\n\" ++ JSON.dquote ++ "\\" ++ JSON.dquote.
Proof. reflexivity. Qed.

Example number_texts :
  map JSON.number_text
    [ JSON.integer 102400; JSON.integer (-51200); JSON.integer (10 ^ 20);
      JSON.integer (10 ^ 21);
      JSON.Finite false
        (JSON.Many JSON.n1
           [JSON.d1; JSON.d8; JSON.d0; JSON.d5; JSON.d9; JSON.d1; JSON.d6;
            JSON.d2; JSON.d0; JSON.d7; JSON.d1; JSON.d7; JSON.d4; JSON.d1;
            JSON.d1] JSON.n3) 5;
      JSON.Finite false (JSON.One JSON.n5) (-1);
      JSON.Finite false (JSON.Many JSON.n1 [JSON.d2] JSON.n5) (-8);
      JSON.Finite false (JSON.Many JSON.n1 [JSON.d2] JSON.n5) (-9);
      JSON.Zero true; JSON.Infinity true ]
  = [ "102400"; "-51200"; "100000000000000000000"; "1e+21";
      "1.1805916207174113e+21"; "0.5"; "0.00000125"; "1.25e-7";
      "0"; "-Infinity" ].
Proof. reflexivity. Qed.

Example stringify_numbers :
  JSON.stringify
    (JSON.Array [ JSON.Number (JSON.integer (10 ^ 21));
                  JSON.Number (JSON.Infinity false);
                  JSON.Number (JSON.Zero true) ])
  = "[" ++ JSON.newline ++ "  1e+21," ++ JSON.newline ++ "  null,"
    ++ JSON.newline ++ "  0" ++ JSON.newline ++ "]".
Proof. reflexivity. Qed.

Example string_conversions :
  map JS.ToString
    [ JSON.Array [JSON.Null; JSON.Number (JSON.integer 2);
                  JSON.Array [JSON.Str "a"; JSON.Bool true]];
      JSON.Object [ ("message", JSON.Str "boom") ];
      JSON.Object [ ("toString", JSON.Null) ];
      JSON.Array [JSON.Object [ ("toString", JSON.Str "x") ]] ]
  = [ Some ",2,a,true"; Some "[object Object]"; None; None ].
Proof. reflexivity. Qed.

(** ** What each callback does, in one equation *)

Lemma rendered_strings (l : list string) :
  JSON.rendered (JSON.strings l) = JSON.strings l.
Proof.
  unfold JSON.strings. rewrite rendered_array. f_equal.
  induction l as [|s l IH]; cbn [map]; [reflexivity | now rewrite IH].
Qed.

Lemma read_printed (doc : JSON.value) :
  Spec.read {| content := [ {| type := "text";
                               text := JSON.stringify doc |} ] |}
  = Spec.read_document (JSON.rendered doc).
Proof.
  unfold Spec.read. cbn [content type text].
  change ("text" =? "text")%string with true. cbv iota.
  now rewrite parse_stringify.
Qed.

(** The run once the collaborator has been called and has settled. *)
Lemma ingest_github_repo_run (a : ingest_github_repo.args) (w : World)
  (run : Run) :
  ingest_github_repo.callback a w run
  = (match ingest w (ingest_github_repo.repo_url a)
             (ingest_github_repo.options a) with
     | Resolved (summary, tree, content_) =>
         Normal {| content := [ {|
           type := "text";
           text := JSON.stringify (JSON.Object [
             ("summary", JSON.Str summary);
             ("tree", JSON.Str tree);
             ("content", JSON.Str content_);
             ("metadata", JSON.Object [
                ("repo_url", JSON.Str (ingest_github_repo.repo_url a));
                ("timestamp", JSON.Str (ISOString_on_resume w));
                ("options_used",
                 JSON.Object (ingest_github_repo.options a)) ]) ]) |} ] |}
     | Rejected error =>
         match error_message error with
         | Normal message =>
             Normal {| content := [ {|
               type := "text";
               text := JSON.stringify (JSON.Object (JSON.defined [
                 ("error", Some (JSON.Str "Failed to ingest repository"));
                 ("message", message);
                 ("repo_url",
                  Some (JSON.Str (ingest_github_repo.repo_url a))) ]))
             |} ] |}
         | Abrupt raised => Abrupt raised
         end
     end,
     {| log := (log run
                ++ [ {| call_source := ingest_github_repo.repo_url a;
                        call_options := ingest_github_repo.options a |} ])%list;
        now_ISOString := ISOString_on_resume w |}).
Proof.
  unfold ingest_github_repo.callback, try_catch, bind, await_ingest,
    Date_toISOString, ret, eval.
  destruct (ingest w _ _) as [[[summary tree] content_]|error];
    [reflexivity|].
  destruct (error_message error); reflexivity.
Qed.

Lemma get_repo_structure_run (a : get_repo_structure.args) (w : World)
  (run : Run) :
  get_repo_structure.callback a w run
  = (match ingest w (get_repo_structure.repo_url a)
             get_repo_structure.options with
     | Resolved (summary, tree, _) =>
         Normal {| content := [ {|
           type := "text";
           text := JSON.stringify (JSON.Object [
             ("summary", JSON.Str summary);
             ("tree", JSON.Str tree);
             ("repo_url", JSON.Str (get_repo_structure.repo_url a)) ])
         |} ] |}
     | Rejected error =>
         match error_message error with
         | Normal message =>
             Normal {| content := [ {|
               type := "text";
               text := JSON.stringify (JSON.Object (JSON.defined [
                 ("error",
                  Some (JSON.Str "Failed to get repository structure"));
                 ("message", message);
                 ("repo_url",
                  Some (JSON.Str (get_repo_structure.repo_url a))) ]))
             |} ] |}
         | Abrupt raised => Abrupt raised
         end
     end,
     {| log := (log run
                ++ [ {| call_source := get_repo_structure.repo_url a;
                        call_options := get_repo_structure.options |} ])%list;
        now_ISOString := ISOString_on_resume w |}).
Proof.
  unfold get_repo_structure.callback, try_catch, bind, await_ingest, ret,
    eval.
  destruct (ingest w _ _) as [[[summary tree] content_]|error];
    [reflexivity|].
  destruct (error_message error); reflexivity.
Qed.

Lemma analyze_code_files_run (a : analyze_code_files.args) (w : World)
  (run : Run) :
  analyze_code_files.callback a w run
  = (match ingest w (analyze_code_files.repo_url a)
             (analyze_code_files.options (analyze_code_files.language a)) with
     | Resolved (summary, tree, content_) =>
         Normal {| content := [ {|
           type := "text";
           text := JSON.stringify (JSON.Object [
             ("summary", JSON.Str summary);
             ("tree", JSON.Str tree);
             ("content", JSON.Str content_);
             ("analysis", JSON.Object [
                ("language",
                 JSON.Str (analyze_code_files.literal
                             (analyze_code_files.language a)));
                ("patterns_used",
                 JSON.strings (analyze_code_files.patternMap
                                 (analyze_code_files.language a)));
                ("repo_url", JSON.Str (analyze_code_files.repo_url a)) ]) ])
         |} ] |}
     | Rejected error =>
         match error_message error with
         | Normal message =>
             Normal {| content := [ {|
               type := "text";
               text := JSON.stringify (JSON.Object (JSON.defined [
                 ("error", Some (JSON.Str "Failed to analyze code files"));
                 ("message", message);
                 ("repo_url",
                  Some (JSON.Str (analyze_code_files.repo_url a)));
                 ("language",
                  Some (JSON.Str (analyze_code_files.literal
                                    (analyze_code_files.language a)))) ]))
             |} ] |}
         | Abrupt raised => Abrupt raised
         end
     end,
     {| log := (log run
                ++ [ {| call_source := analyze_code_files.repo_url a;
                        call_options :=
                          analyze_code_files.options
                            (analyze_code_files.language a) |} ])%list;
        now_ISOString := ISOString_on_resume w |}).
Proof.
  unfold analyze_code_files.callback, try_catch, bind, await_ingest, ret,
    eval.
  destruct (ingest w _ _) as [[[summary tree] content_]|error];
    [reflexivity|].
  destruct (error_message error); reflexivity.
Qed.

Lemma get_repo_docs_run (a : get_repo_docs.args) (w : World) (run : Run) :
  get_repo_docs.callback a w run
  = (match ingest w (get_repo_docs.repo_url a) get_repo_docs.options with
     | Resolved (summary, tree, content_) =>
         Normal {| content := [ {|
           type := "text";
           text := JSON.stringify (JSON.Object [
             ("summary", JSON.Str summary);
             ("tree", JSON.Str tree);
             ("content", JSON.Str content_);
             ("metadata", JSON.Object [
                ("type", JSON.Str "documentation");
                ("repo_url", JSON.Str (get_repo_docs.repo_url a)) ]) ])
         |} ] |}
     | Rejected error =>
         match error_message error with
         | Normal message =>
             Normal {| content := [ {|
               type := "text";
               text := JSON.stringify (JSON.Object (JSON.defined [
                 ("error",
                  Some (JSON.Str "Failed to get repository documentation"));
                 ("message", message);
                 ("repo_url",
                  Some (JSON.Str (get_repo_docs.repo_url a))) ]))
             |} ] |}
         | Abrupt raised => Abrupt raised
         end
     end,
     {| log := (log run
                ++ [ {| call_source := get_repo_docs.repo_url a;
                        call_options := get_repo_docs.options |} ])%list;
        now_ISOString := ISOString_on_resume w |}).
Proof.
  unfold get_repo_docs.callback, try_catch, bind, await_ingest, ret, eval.
  destruct (ingest w _ _) as [[[summary tree] content_]|error];
    [reflexivity|].
  destruct (error_message error); reflexivity.
Qed.

(** Every callback calls the collaborator exactly once, with the tool's
    repository URL and option object, whatever the collaborator answers. *)
Lemma handle_calls (c : GitIngestMCP.ToolCall) (w : World) :
  calls (GitIngestMCP.handle c) w
  = [ {| call_source := GitIngestMCP.repo_url c;
         call_options := GitIngestMCP.options c |} ].
Proof.
  unfold calls. destruct c as [a|a|a|a]; cbn [GitIngestMCP.handle].
  - now rewrite ingest_github_repo_run.
  - now rewrite get_repo_structure_run.
  - now rewrite analyze_code_files_run.
  - now rewrite get_repo_docs_run.
Qed.

(** ** Failure replies *)

(** Closes [exists r x, completion = Normal r /\ Spec.read r = Some _ /\ _]
    up to the last conjunct, once the callback has been run. *)
Ltac read_reply :=
  eexists; eexists; split; [reflexivity|]; split;
  [rewrite read_printed; reflexivity|].

Lemma error_text_names_tool (c c' : GitIngestMCP.ToolCall) :
  GitIngestMCP.error_text c' = GitIngestMCP.error_text c ->
  GitIngestMCP.tool_name c' = GitIngestMCP.tool_name c.
Proof.
  destruct c, c'; cbn; intros H; try reflexivity; discriminate H.
Qed.

(** The text section 4.1 speaks of is what the catch block extracts. *)
Lemma message_text_extracted (e : JS.thrown) (m : string) :
  Spec.message_text e m <-> error_message e = Normal (Some (JSON.Str m)).
Proof.
  split.
  - intros [m'| |v m' H]; cbn [error_message]; [reflexivity ..|].
    now rewrite H.
  - destruct e as [[[]|]|props| |v]; cbn [error_message]; intros H;
      try discriminate H.
    + injection H as <-. constructor.
    + injection H as <-. constructor.
    + destruct (JS.ToString v) eqn:E; [|discriminate H].
      injection H as <-. constructor. exact E.
Qed.

(** C1, as amended.  For each of the four tools, when the collaborator's
    [ingest] call raises a value [e] from which the catch block extracts a
    message text [m] (the [message] of an [Error] when it is a string, the
    string conversion of any other value when that conversion does not
    itself raise), the callback completes normally with a reply that reads
    as a failure whose error kind is the tool's own error text (distinct
    tools have distinct texts), whose message is [m], and whose context holds
    the input [repo_url] and, for [analyze_code_files], the [language].  The
    message is as long as the extracted text: it is empty when that text
    is. *)
Theorem failure_reply_reports_error_text
  (c : GitIngestMCP.ToolCall) (w : World) (e : JS.thrown) (m : string) :
  ingest w (GitIngestMCP.repo_url c) (GitIngestMCP.options c) = Rejected e ->
  Spec.message_text e m ->
  exists r context,
    completion (GitIngestMCP.handle c) w = Normal r
    /\ Spec.read r
       = Some (Spec.failure (GitIngestMCP.error_text c) m context)
    /\ (forall c', GitIngestMCP.error_text c' = GitIngestMCP.error_text c ->
                   GitIngestMCP.tool_name c' = GitIngestMCP.tool_name c)
    /\ JSON.get context "repo_url" = Some (JSON.Str (GitIngestMCP.repo_url c))
    /\ (forall a, c = GitIngestMCP.AnalyzeCodeFiles a ->
          JSON.get context "language"
          = Some (JSON.Str (analyze_code_files.literal
                              (analyze_code_files.language a)))).
Proof.
  intros H Ht. apply message_text_extracted in Ht as Hm. unfold completion.
  destruct c as [a|a|a|a];
    cbn [GitIngestMCP.handle GitIngestMCP.repo_url GitIngestMCP.options] in *;
    [ rewrite ingest_github_repo_run | rewrite get_repo_structure_run
    | rewrite analyze_code_files_run | rewrite get_repo_docs_run ];
    rewrite H, Hm; cbn [fst]; read_reply;
    (split; [apply error_text_names_tool|]); (split; [reflexivity|]);
    intros a' Ha; try discriminate Ha.
  injection Ha as <-. reflexivity.
Qed.

(** An instance: [analyze_code_files] on a collaborator that raises the
    string ["rate limited"]. *)
Lemma failure_reply_reports_error_text_witness :
  ingest Examples.rate_limited
    (GitIngestMCP.repo_url (GitIngestMCP.AnalyzeCodeFiles Examples.analyze_rust))
    (GitIngestMCP.options (GitIngestMCP.AnalyzeCodeFiles Examples.analyze_rust))
  = Rejected (JS.Plain (JSON.Str "rate limited"))
  /\ Spec.message_text (JS.Plain (JSON.Str "rate limited")) "rate limited"
  /\ exists r context,
       completion
         (GitIngestMCP.handle (GitIngestMCP.AnalyzeCodeFiles Examples.analyze_rust))
         Examples.rate_limited = Normal r
       /\ Spec.read r
          = Some (Spec.failure "Failed to analyze code files" "rate limited"
                    context)
       /\ (forall c',
             GitIngestMCP.error_text c' = "Failed to analyze code files" ->
             GitIngestMCP.tool_name c' = "analyze_code_files")
       /\ JSON.get context "repo_url" = Some (JSON.Str Examples.hello_world)
       /\ (forall a,
             GitIngestMCP.AnalyzeCodeFiles Examples.analyze_rust
             = GitIngestMCP.AnalyzeCodeFiles a ->
             JSON.get context "language"
             = Some (JSON.Str (analyze_code_files.literal
                                 (analyze_code_files.language a)))).
Proof.
  assert (Ht : Spec.message_text (JS.Plain (JSON.Str "rate limited"))
                 "rate limited").
  { apply Spec.stringified. reflexivity. }
  split; [reflexivity|]. split; [exact Ht|].
  apply (failure_reply_reports_error_text
           (GitIngestMCP.AnalyzeCodeFiles Examples.analyze_rust)
           Examples.rate_limited (JS.Plain (JSON.Str "rate limited"))
           "rate limited");
    [reflexivity | exact Ht].
Defined.

(** C1, as stated, fails: when the collaborator raises [new Error()], whose
    message is the empty string, the failure reply of [ingest_github_repo]
    carries an empty message. *)
Lemma failure_message_may_be_empty :
  ingest Examples.silent_failure
    (GitIngestMCP.repo_url (GitIngestMCP.IngestGithubRepo Examples.ingest_everything))
    (GitIngestMCP.options (GitIngestMCP.IngestGithubRepo Examples.ingest_everything))
  = Rejected (JS.ErrorInstance (Some (JSON.Str "")))
  /\ (exists r,
        completion
          (GitIngestMCP.handle
             (GitIngestMCP.IngestGithubRepo Examples.ingest_everything))
          Examples.silent_failure = Normal r
        /\ Spec.read r
           = Some (Spec.failure "Failed to ingest repository" ""
                     [("repo_url", JSON.Str Examples.hello_world)]))
  /\ ~ Spec.failure_reply_as_stated
         (GitIngestMCP.IngestGithubRepo Examples.ingest_everything)
         Examples.silent_failure.
Proof.
  split; [reflexivity|]. split.
  - eexists. split; [reflexivity|]. vm_compute. reflexivity.
  - intros (r & kind & message & context & Hr & Hread & Hne & _).
    vm_compute in Hr. injection Hr as <-.
    vm_compute in Hread. injection Hread as _ Hm _.
    apply Hne. now rewrite <- Hm.
Qed.

(** What the catch block does with each raised value: when the message
    extraction raises, the callback completes abruptly with what it raised
    and gives no reply. *)
Lemma catch_block_raises
  (c : GitIngestMCP.ToolCall) (w : World) (e raised : JS.thrown) :
  ingest w (GitIngestMCP.repo_url c) (GitIngestMCP.options c) = Rejected e ->
  error_message e = Abrupt raised ->
  completion (GitIngestMCP.handle c) w = Abrupt raised.
Proof.
  intros H Hm. unfold completion.
  destruct c as [a|a|a|a];
    cbn [GitIngestMCP.handle GitIngestMCP.repo_url GitIngestMCP.options] in *;
    [ rewrite ingest_github_repo_run | rewrite get_repo_structure_run
    | rewrite analyze_code_files_run | rewrite get_repo_docs_run ];
    rewrite H, Hm; reflexivity.
Qed.

(** The string conversion raises exactly on an object without prototype,
    on a plain object with a [toString] property of its own, and on an array
    that holds such an object. *)
Lemma error_message_raises (e raised : JS.thrown) :
  error_message e = Abrupt raised ->
  raised = JS.cannot_convert
  /\ ((exists props, e = JS.NoPrototype props)
      \/ (exists v, e = JS.Plain v /\ JS.ToString v = None)).
Proof.
  destruct e as [m|props| |v]; cbn [error_message]; try discriminate.
  - intros H. injection H as <-. split; [reflexivity|]. left. eauto.
  - destruct (JS.ToString v) eqn:E; [discriminate|].
    intros H. injection H as <-. split; [reflexivity|]. right. eauto.
Qed.

(** A raised value without message text gets no well-formed failure reply:
    either the extraction raises and the callback with it, or the reply
    that is returned holds no message string. *)
Lemma reply_without_text
  (c : GitIngestMCP.ToolCall) (w : World) (e : JS.thrown) :
  ingest w (GitIngestMCP.repo_url c) (GitIngestMCP.options c) = Rejected e ->
  (forall m, ~ Spec.message_text e m) ->
  completion (GitIngestMCP.handle c) w = Abrupt JS.cannot_convert
  \/ exists r, completion (GitIngestMCP.handle c) w = Normal r
               /\ Spec.read r = None.
Proof.
  intros H Hno.
  destruct (error_message e) as [message|raised] eqn:Em.
  - right. unfold completion.
    assert (Hm : forall m, message <> Some (JSON.Str m)).
    { intros m ->. apply (Hno m), message_text_extracted, Em. }
    destruct c as [a|a|a|a];
      cbn [GitIngestMCP.handle GitIngestMCP.repo_url GitIngestMCP.options]
        in *;
      [ rewrite ingest_github_repo_run | rewrite get_repo_structure_run
      | rewrite analyze_code_files_run | rewrite get_repo_docs_run ];
      rewrite H, Em; cbn [fst]; (eexists; split; [reflexivity|]);
      rewrite read_printed;
      destruct message as [[| |[]|m| |]|];
        try reflexivity; exfalso; exact (Hm m eq_refl).
  - left. destruct (error_message_raises e raised Em) as [-> _].
    exact (catch_block_raises c w e JS.cannot_convert H Em).
Qed.

(** C8: the code at the failing inputs.  When the collaborator raises
    [Object.create(null)], or an object with a [toString] property of its
    own, [String(error)] raises a [TypeError] inside the catch block: the
    callback completes abruptly with that error and returns no reply.  When
    it raises an [Error] whose [message] is [undefined], a reply is returned
    but it holds no message. *)
Lemma unconvertible_error_escapes :
  completion (get_repo_docs.callback MoreExamples.docs_of_hello_world)
    MoreExamples.bare_object_failure
  = Abrupt JS.cannot_convert
  /\ completion (get_repo_docs.callback MoreExamples.docs_of_hello_world)
       MoreExamples.own_toString_failure
     = Abrupt JS.cannot_convert
  /\ exists r,
       completion (get_repo_docs.callback MoreExamples.docs_of_hello_world)
         MoreExamples.undefined_message_failure
       = Normal r
       /\ Reader.parse (text (hd {| type := ""; text := "" |} (content r)))
          = Some (JSON.Object
                    [ ("error",
                       JSON.Str "Failed to get repository documentation");
                      ("repo_url", JSON.Str Examples.hello_world) ])
       /\ Spec.read r = None.
Proof.
  split; [reflexivity|]. split; [reflexivity|].
  eexists. split; [reflexivity|]. split; vm_compute; reflexivity.
Qed.

(** ** Option translation of [ingest_github_repo] *)

Lemma ingest_github_repo_calls (a : ingest_github_repo.args) (w : World) :
  calls (ingest_github_repo.callback a) w
  = [ {| call_source := ingest_github_repo.repo_url a;
         call_options := ingest_github_repo.options a |} ].
Proof. unfold calls. now rewrite ingest_github_repo_run. Qed.

(** C2, as amended.  The option object [ingest_github_repo] hands to the
    collaborator holds [include_patterns] and [exclude_patterns] verbatim
    whenever they are present (an empty list included), holds
    [max_file_size] verbatim whenever it is present and not zero, and has no
    key for a field that is absent from the input. *)
Theorem ingest_options_copy_truthy_fields
  (a : ingest_github_repo.args) (w : World) :
  exists o,
    calls (ingest_github_repo.callback a) w
    = [ {| call_source := ingest_github_repo.repo_url a; call_options := o |} ]
    /\ (forall l, ingest_github_repo.include_patterns a = Some l ->
                  JSON.get o "include_patterns" = Some (JSON.strings l))
    /\ (forall l, ingest_github_repo.exclude_patterns a = Some l ->
                  JSON.get o "exclude_patterns" = Some (JSON.strings l))
    /\ (forall n, ingest_github_repo.max_file_size a = Some n ->
                  JSON.is_zero n = false ->
                  JSON.get o "max_file_size" = Some (JSON.Number n))
    /\ (ingest_github_repo.include_patterns a = None ->
        JSON.get o "include_patterns" = None)
    /\ (ingest_github_repo.exclude_patterns a = None ->
        JSON.get o "exclude_patterns" = None)
    /\ (ingest_github_repo.max_file_size a = None ->
        JSON.get o "max_file_size" = None).
Proof.
  exists (ingest_github_repo.options a).
  split; [apply ingest_github_repo_calls|].
  destruct a as [u [i|] [e|] [n|]]; unfold ingest_github_repo.options;
    cbn [ingest_github_repo.include_patterns
         ingest_github_repo.exclude_patterns
         ingest_github_repo.max_file_size option_map];
    unfold assign_if_truthy; cbn [JS.ToBoolean JSON.strings];
    try (destruct (JSON.is_zero n) eqn:Hn); cbn;
    repeat split; intros; try discriminate; try congruence.
Qed.

Example ingest_options_all_set :
  ingest_github_repo.options Examples.ingest_python_capped
  = [ ("include_patterns", JSON.Array [JSON.Str "*.py"]);
      ("exclude_patterns", JSON.Array [JSON.Str "tests/*"; JSON.Str "*.log"]);
      ("max_file_size", JSON.Number (JSON.integer 4096)) ].
Proof. reflexivity. Qed.

Example ingest_options_none_set :
  ingest_github_repo.options Examples.ingest_everything = [].
Proof. reflexivity. Qed.

(** C2, as stated, fails: with [max_file_size] present and equal to zero the
    option object has no [max_file_size] key. *)
Lemma ingest_options_drop_zero_size :
  calls (ingest_github_repo.callback Examples.ingest_zero_size)
    (Examples.working Examples.morning)
  = [ {| call_source := Examples.hello_world; call_options := [] |} ]
  /\ ingest_github_repo.max_file_size Examples.ingest_zero_size
     = Some (JSON.integer 0)
  /\ ~ Spec.options_as_stated Examples.ingest_zero_size [].
Proof.
  split; [reflexivity|]. split; [reflexivity|].
  intros (_ & _ & H & _). specialize (H (JSON.integer 0) eq_refl).
  discriminate H.
Qed.

(** C3.  A [max_file_size] of zero (of either sign) is treated like an
    absent one: the call made to the collaborator is the same, and its
    option object has no [max_file_size] key. *)
Theorem ingest_options_zero_size_as_unset
  (u : string) (i e : option (list string)) (negative : bool) (w : World) :
  calls (ingest_github_repo.callback
           {| ingest_github_repo.repo_url := u;
              ingest_github_repo.include_patterns := i;
              ingest_github_repo.exclude_patterns := e;
              ingest_github_repo.max_file_size :=
                Some (JSON.Zero negative) |}) w
  = calls (ingest_github_repo.callback
             {| ingest_github_repo.repo_url := u;
                ingest_github_repo.include_patterns := i;
                ingest_github_repo.exclude_patterns := e;
                ingest_github_repo.max_file_size := None |}) w
  /\ exists o,
       calls (ingest_github_repo.callback
                {| ingest_github_repo.repo_url := u;
                   ingest_github_repo.include_patterns := i;
                   ingest_github_repo.exclude_patterns := e;
                   ingest_github_repo.max_file_size :=
                     Some (JSON.Zero negative) |}) w
       = [ {| call_source := u; call_options := o |} ]
       /\ JSON.get o "max_file_size" = None.
Proof.
  rewrite !ingest_github_repo_calls. split; [reflexivity|].
  eexists. split; [reflexivity|].
  destruct i, e; reflexivity.
Qed.

(** ** The three fixed option objects *)

(** C4.  For language [python], whatever the repository URL and whatever the
    collaborator answers, [analyze_code_files] calls the collaborator once
    with [include_patterns = ["*.py"]], the fixed exclude list and
    [max_file_size = 102400]. *)
Theorem analyze_python_call (u : string) (w : World) :
  calls (analyze_code_files.callback
           {| analyze_code_files.repo_url := u;
              analyze_code_files.language := analyze_code_files.python |}) w
  = [ {| call_source := u;
         call_options :=
           [ ("include_patterns", JSON.Array [JSON.Str "*.py"]);
             ("exclude_patterns",
              JSON.Array [JSON.Str "node_modules/*"; JSON.Str "dist/*";
                          JSON.Str "build/*"; JSON.Str "*.min.js"]);
             ("max_file_size", JSON.Number (JSON.integer 102400)) ] |} ].
Proof. unfold calls. now rewrite analyze_code_files_run. Qed.

(** C5.  [get_repo_structure] always calls the collaborator once with the
    option object [{max_file_size: 1}].  When the collaborator resolves, the
    reply reads as a success whose payload has exactly [summary], [tree] and
    [repo_url]: the collaborator's content, empty or not, is not in it.
    When the collaborator raises a value with a message text, the reply
    reads as a failure with that text; when it raises a value without one,
    the callback raises or its reply holds no message string. *)
Theorem structure_call_and_reply (a : get_repo_structure.args) (w : World) :
  calls (get_repo_structure.callback a) w
  = [ {| call_source := get_repo_structure.repo_url a;
         call_options := [ ("max_file_size",
                            JSON.Number (JSON.integer 1)) ] |} ]
  /\ match ingest w (get_repo_structure.repo_url a)
             [ ("max_file_size", JSON.Number (JSON.integer 1)) ] with
     | Resolved (summary, tree, _) =>
         exists r,
           completion (get_repo_structure.callback a) w = Normal r
           /\ Spec.read r
              = Some (Spec.success
                        [ ("summary", JSON.Str summary);
                          ("tree", JSON.Str tree);
                          ("repo_url",
                           JSON.Str (get_repo_structure.repo_url a)) ])
     | Rejected e =>
         (forall m, Spec.message_text e m ->
            exists r,
              completion (get_repo_structure.callback a) w = Normal r
              /\ Spec.read r
                 = Some (Spec.failure "Failed to get repository structure" m
                           [ ("repo_url",
                              JSON.Str (get_repo_structure.repo_url a)) ]))
         /\ ((forall m, ~ Spec.message_text e m) ->
             completion (get_repo_structure.callback a) w
             = Abrupt JS.cannot_convert
             \/ exists r,
                  completion (get_repo_structure.callback a) w = Normal r
                  /\ Spec.read r = None)
     end.
Proof.
  split; [unfold calls; now rewrite get_repo_structure_run|].
  change [ ("max_file_size", JSON.Number (JSON.integer 1)) ]
    with (GitIngestMCP.options (GitIngestMCP.GetRepoStructure a)).
  change (get_repo_structure.repo_url a)
    with (GitIngestMCP.repo_url (GitIngestMCP.GetRepoStructure a)).
  destruct (ingest w _ _) as [[[s t] k]|e] eqn:H.
  - unfold completion. rewrite get_repo_structure_run.
    cbn [GitIngestMCP.repo_url GitIngestMCP.options] in H. rewrite H.
    eexists. split; [reflexivity|]. rewrite read_printed. reflexivity.
  - split.
    + intros m Ht. apply message_text_extracted in Ht.
      unfold completion. rewrite get_repo_structure_run.
      cbn [GitIngestMCP.repo_url GitIngestMCP.options] in H.
      rewrite H, Ht.
      eexists. split; [reflexivity|]. rewrite read_printed. reflexivity.
    + exact (reply_without_text (GitIngestMCP.GetRepoStructure a) w e H).
Qed.

(** C6.  [get_repo_docs] always calls the collaborator once with
    [include_patterns] equal to the five documentation globs and
    [max_file_size = 51200]; these are the only two keys, so there is no
    [exclude_patterns]. *)
Theorem docs_call (a : get_repo_docs.args) (w : World) :
  exists o,
    calls (get_repo_docs.callback a) w
    = [ {| call_source := get_repo_docs.repo_url a; call_options := o |} ]
    /\ o = [ ("include_patterns",
              JSON.Array [JSON.Str "*.md"; JSON.Str "*.mdx"; JSON.Str "*.txt";
                          JSON.Str "LICENSE*"; JSON.Str "README*"]);
             ("max_file_size", JSON.Number (JSON.integer 51200)) ]
    /\ JSON.keys o = ["include_patterns"; "max_file_size"]
    /\ JSON.get o "exclude_patterns" = None.
Proof.
  eexists. unfold calls. rewrite get_repo_docs_run.
  split; [reflexivity|]. repeat split.
Qed.

(** ** Success reply of [ingest_github_repo] *)

(** C9, as amended.  When the collaborator resolves with [summary], [tree]
    and [content], the reply of [ingest_github_repo] reads as a success
    whose payload holds these three texts and a [metadata] object with the
    input [repo_url], the instant the clock shows once the callback has
    resumed after the collaborator's answer, and under [options_used] an
    object with the keys of the option object passed to the collaborator:
    the two pattern lists as passed, and [max_file_size] as passed when it
    is finite, [null] when it is infinite. *)
Theorem ingest_success_reply
  (a : ingest_github_repo.args) (w : World) (summary tree content_ : string) :
  ingest w (ingest_github_repo.repo_url a) (ingest_github_repo.options a)
  = Resolved (summary, tree, content_) ->
  exists o used r,
    calls (ingest_github_repo.callback a) w
    = [ {| call_source := ingest_github_repo.repo_url a; call_options := o |} ]
    /\ completion (ingest_github_repo.callback a) w = Normal r
    /\ Spec.read r
       = Some (Spec.success
                 [ ("summary", JSON.Str summary);
                   ("tree", JSON.Str tree);
                   ("content", JSON.Str content_);
                   ("metadata",
                    JSON.Object
                      [ ("repo_url", JSON.Str (ingest_github_repo.repo_url a));
                        ("timestamp", JSON.Str (ISOString_on_resume w));
                        ("options_used", JSON.Object used) ]) ])
    /\ JSON.keys used = JSON.keys o
    /\ JSON.get used "include_patterns" = JSON.get o "include_patterns"
    /\ JSON.get used "exclude_patterns" = JSON.get o "exclude_patterns"
    /\ (forall n, JSON.get o "max_file_size" = Some (JSON.Number n) ->
          JSON.get used "max_file_size"
          = Some (match n with
                  | JSON.Infinity _ => JSON.Null
                  | _ => JSON.Number n
                  end)).
Proof.
  intros H. unfold calls, completion. rewrite ingest_github_repo_run, H.
  exists (ingest_github_repo.options a).
  exists (map (fun p => (fst p, JSON.rendered (snd p)))
            (ingest_github_repo.options a)).
  eexists. split; [reflexivity|]. split; [reflexivity|].
  split.
  { rewrite read_printed, <- rendered_object. reflexivity. }
  pose proof rendered_strings as R. cbn in R.
  destruct a as [u [i|] [e|] [[negative|negative|negative s x]|]];
    unfold ingest_github_repo.options, assign_if_truthy;
    cbn [ingest_github_repo.include_patterns
         ingest_github_repo.exclude_patterns
         ingest_github_repo.max_file_size option_map
         JS.ToBoolean JSON.strings JSON.is_zero negb];
    cbn; rewrite ?R;
    repeat split; try reflexivity;
    intros n Hn; inversion Hn; reflexivity.
Qed.

(** An instance: a call with all three optional fields set, on a
    collaborator that succeeds; the callback is entered at midnight and
    resumes in the morning. *)
Lemma ingest_success_reply_witness :
  ingest (Examples.working Examples.morning)
    (ingest_github_repo.repo_url Examples.ingest_python_capped)
    (ingest_github_repo.options Examples.ingest_python_capped)
  = Resolved ("Repository: octocat/Hello-World",
              "Hello-World/" ++ JSON.newline ++ "  README",
              "Hello World!")
  /\ exists o used r,
       calls (ingest_github_repo.callback Examples.ingest_python_capped)
         (Examples.working Examples.morning)
       = [ {| call_source := Examples.hello_world; call_options := o |} ]
       /\ completion (ingest_github_repo.callback Examples.ingest_python_capped)
            (Examples.working Examples.morning) = Normal r
       /\ Spec.read r
          = Some (Spec.success
                    [ ("summary", JSON.Str "Repository: octocat/Hello-World");
                      ("tree",
                       JSON.Str ("Hello-World/" ++ JSON.newline ++ "  README"));
                      ("content", JSON.Str "Hello World!");
                      ("metadata",
                       JSON.Object
                         [ ("repo_url", JSON.Str Examples.hello_world);
                           ("timestamp", JSON.Str Examples.morning);
                           ("options_used", JSON.Object used) ]) ])
       /\ JSON.keys used = JSON.keys o
       /\ JSON.get used "include_patterns" = JSON.get o "include_patterns"
       /\ JSON.get used "exclude_patterns" = JSON.get o "exclude_patterns"
       /\ (forall n, JSON.get o "max_file_size" = Some (JSON.Number n) ->
             JSON.get used "max_file_size"
             = Some (match n with
                     | JSON.Infinity _ => JSON.Null
                     | _ => JSON.Number n
                     end)).
Proof.
  split; [reflexivity|].
  apply (ingest_success_reply Examples.ingest_python_capped
           (Examples.working Examples.morning)).
  reflexivity.
Defined.

(** The timestamp is the instant of resumption, not that of entry, and a
    finite size limit is echoed as passed. *)
Example ingest_reply_in_the_morning :
  completion (ingest_github_repo.callback Examples.ingest_python_capped)
    (Examples.working Examples.morning)
  = Normal
      {| content := [ {| type := "text";
           text := JSON.stringify
             (JSON.Object
                [ ("summary", JSON.Str "Repository: octocat/Hello-World");
                  ("tree",
                   JSON.Str ("Hello-World/" ++ JSON.newline ++ "  README"));
                  ("content", JSON.Str "Hello World!");
                  ("metadata",
                   JSON.Object
                     [ ("repo_url", JSON.Str Examples.hello_world);
                       ("timestamp", JSON.Str "2025-01-01T08:00:00.000Z");
                       ("options_used",
                        JSON.Object
                          [ ("include_patterns", JSON.Array [JSON.Str "*.py"]);
                            ("exclude_patterns",
                             JSON.Array [JSON.Str "tests/*";
                                         JSON.Str "*.log"]);
                            ("max_file_size",
                             JSON.Number (JSON.integer 4096)) ]) ]) ]) |} ] |}.
Proof. reflexivity. Qed.

(** C9, as stated, fails: with [max_file_size] infinite the collaborator
    receives the infinite limit while the reply shows [null] under
    [options_used.max_file_size]. *)
Lemma options_echo_loses_infinity :
  calls (ingest_github_repo.callback MoreExamples.ingest_unbounded)
    (Examples.working Examples.morning)
  = [ {| call_source := Examples.hello_world;
         call_options := [ ("max_file_size",
                            JSON.Number (JSON.Infinity false)) ] |} ]
  /\ (exists r,
        completion (ingest_github_repo.callback MoreExamples.ingest_unbounded)
          (Examples.working Examples.morning) = Normal r
        /\ Spec.read r
           = Some (Spec.success
                     [ ("summary", JSON.Str "Repository: octocat/Hello-World");
                       ("tree",
                        JSON.Str ("Hello-World/" ++ JSON.newline
                                  ++ "  README"));
                       ("content", JSON.Str "Hello World!");
                       ("metadata",
                        JSON.Object
                          [ ("repo_url", JSON.Str Examples.hello_world);
                            ("timestamp", JSON.Str Examples.morning);
                            ("options_used",
                             JSON.Object
                               [ ("max_file_size", JSON.Null) ]) ]) ]))
  /\ ~ Spec.ingest_success_as_stated MoreExamples.ingest_unbounded
         (Examples.working Examples.morning).
Proof.
  split; [reflexivity|]. split.
  { eexists. split; [reflexivity|]. vm_compute. reflexivity. }
  intros (o & r & s & t & c & ts & Hc & _ & Hr & Hread).
  unfold calls, completion in Hc, Hr.
  rewrite ingest_github_repo_run in Hc, Hr.
  cbn [snd log app] in Hc. injection Hc as <-.
  cbn [fst Examples.working ingest] in Hr. injection Hr as <-.
  rewrite read_printed in Hread. vm_compute in Hread.
  discriminate Hread.
Qed.

(** ** Replies that do not depend on the clock *)

(** C10.  For [get_repo_structure], [analyze_code_files] and
    [get_repo_docs], the reply is a function of the input and of what the
    collaborator answered: two worlds in which the collaborator settles the
    call in the same way give the same completion, hence the same reply text
    character for character, whatever their clocks show. *)
Theorem replies_deterministic (c : GitIngestMCP.ToolCall) (w1 w2 : World) :
  String.eqb (GitIngestMCP.tool_name c) "ingest_github_repo" = false ->
  ingest w1 (GitIngestMCP.repo_url c) (GitIngestMCP.options c)
  = ingest w2 (GitIngestMCP.repo_url c) (GitIngestMCP.options c) ->
  completion (GitIngestMCP.handle c) w1 = completion (GitIngestMCP.handle c) w2.
Proof.
  intros Hname H. unfold completion.
  destruct c as [a|a|a|a]; cbn [GitIngestMCP.handle GitIngestMCP.repo_url
                                  GitIngestMCP.options] in *.
  - discriminate Hname.
  - rewrite !get_repo_structure_run, H. reflexivity.
  - rewrite !analyze_code_files_run, H. reflexivity.
  - rewrite !get_repo_docs_run, H. reflexivity.
Qed.

(** An instance: the same successful analysis seen in the morning and in
    the evening. *)
Lemma replies_deterministic_witness :
  String.eqb
    (GitIngestMCP.tool_name (GitIngestMCP.AnalyzeCodeFiles Examples.analyze_rust))
    "ingest_github_repo" = false
  /\ ingest (Examples.working Examples.morning)
       (GitIngestMCP.repo_url (GitIngestMCP.AnalyzeCodeFiles Examples.analyze_rust))
       (GitIngestMCP.options (GitIngestMCP.AnalyzeCodeFiles Examples.analyze_rust))
     = ingest (Examples.working Examples.evening)
         (GitIngestMCP.repo_url (GitIngestMCP.AnalyzeCodeFiles Examples.analyze_rust))
         (GitIngestMCP.options (GitIngestMCP.AnalyzeCodeFiles Examples.analyze_rust))
  /\ completion
       (GitIngestMCP.handle (GitIngestMCP.AnalyzeCodeFiles Examples.analyze_rust))
       (Examples.working Examples.morning)
     = completion
         (GitIngestMCP.handle (GitIngestMCP.AnalyzeCodeFiles Examples.analyze_rust))
         (Examples.working Examples.evening).
Proof.
  split; [reflexivity|]. split; [reflexivity|].
  apply (replies_deterministic
           (GitIngestMCP.AnalyzeCodeFiles Examples.analyze_rust)
           (Examples.working Examples.morning)
           (Examples.working Examples.evening));
    reflexivity.
Defined.

(** By contrast the reply of [ingest_github_repo] changes with the clock. *)
Lemma ingest_reply_follows_clock :
  completion (ingest_github_repo.callback Examples.ingest_everything)
    (Examples.working Examples.morning)
  <> completion (ingest_github_repo.callback Examples.ingest_everything)
       (Examples.working Examples.evening).
Proof. vm_compute. intros H. discriminate H. Qed.

(** ** Validation of the language *)

Lemma member_unlisted {A} (s : string) (members : list (string * A)) :
  ~ In s (map fst members) -> z.member s members = None.
Proof.
  induction members as [|[name a] rest IH]; intros H; [reflexivity|].
  cbn [z.member]. destruct (String.eqb_spec s name) as [->|Hne].
  - exfalso. apply H. left. reflexivity.
  - apply IH. intros Hin. apply H. right. exact Hin.
Qed.

Lemma member_literal (l : analyze_code_files.Language) :
  z.member (analyze_code_files.literal l) analyze_code_files.languages = Some l.
Proof. destruct l; reflexivity. Qed.

Lemma analyze_rejects_unparsed (raw : JSON.object) (w : World) (run : Run) :
  analyze_code_files.inputSchema raw = None ->
  McpServer.callTool GitIngestMCP.init "analyze_code_files"
    (Some (JSON.Object raw)) w run
  = (Normal (McpServer.InvalidParams "analyze_code_files"), run).
Proof.
  intros H. unfold McpServer.callTool, GitIngestMCP.init.
  cbn [find McpServer.name McpServer.tool McpServer.run].
  change ("ingest_github_repo" =? "analyze_code_files")%string with false.
  change ("get_repo_structure" =? "analyze_code_files")%string with false.
  change ("analyze_code_files" =? "analyze_code_files")%string with true.
  cbv iota. cbn [McpServer.run McpServer.tool]. rewrite H. reflexivity.
Qed.

(** A listed language is accepted and reaches the callback (keys outside
    the shape are ignored). *)
Lemma analyze_accepts_listed (raw : JSON.object) (u : string)
  (l : analyze_code_files.Language) (w : World) (run : Run) :
  JSON.get raw "repo_url" = Some (JSON.Str u) ->
  JSON.get raw "language" = Some (JSON.Str (analyze_code_files.literal l)) ->
  McpServer.callTool GitIngestMCP.init "analyze_code_files"
    (Some (JSON.Object raw)) w run
  = bind (analyze_code_files.callback
            {| analyze_code_files.repo_url := u;
               analyze_code_files.language := l |})
      (fun r => ret (McpServer.Result r)) w run.
Proof.
  intros Hu Hl. unfold McpServer.callTool, GitIngestMCP.init.
  cbn [find McpServer.name McpServer.tool McpServer.run].
  change ("ingest_github_repo" =? "analyze_code_files")%string with false.
  change ("get_repo_structure" =? "analyze_code_files")%string with false.
  change ("analyze_code_files" =? "analyze_code_files")%string with true.
  cbv iota. cbn [McpServer.run McpServer.tool].
  unfold analyze_code_files.inputSchema.
  rewrite Hu, Hl. cbn [z.string z.enum]. rewrite member_literal.
  reflexivity.
Qed.

(** C7.  A call of [analyze_code_files] whose [language] is a string outside
    the seven listed names is rejected by validation: the outcome is the
    invalid-parameters failure, the callback does not run, and the state of
    the run, the log of collaborator calls included, is unchanged. *)
Theorem analyze_rejects_unlisted_language
  (raw : JSON.object) (l : string) (w : World) (run : Run) :
  JSON.get raw "language" = Some (JSON.Str l) ->
  ~ In l Spec.language_names ->
  McpServer.callTool GitIngestMCP.init "analyze_code_files"
    (Some (JSON.Object raw)) w run
  = (Normal (McpServer.InvalidParams "analyze_code_files"), run).
Proof.
  intros Hl Hout. apply analyze_rejects_unparsed.
  unfold analyze_code_files.inputSchema. rewrite Hl. cbn [z.enum].
  rewrite (member_unlisted l analyze_code_files.languages Hout).
  destruct (z.string _); reflexivity.
Qed.

(** An instance: the language ["ruby"]. *)
Lemma analyze_rejects_unlisted_language_witness :
  JSON.get Examples.ruby_arguments "language" = Some (JSON.Str "ruby")
  /\ ~ In "ruby" Spec.language_names
  /\ McpServer.callTool GitIngestMCP.init "analyze_code_files"
       (Some (JSON.Object Examples.ruby_arguments))
       (Examples.working Examples.morning)
       (enter (Examples.working Examples.morning))
     = (Normal (McpServer.InvalidParams "analyze_code_files"),
        {| log := []; now_ISOString := Examples.midnight |}).
Proof.
  assert (Hout : ~ In "ruby" Spec.language_names).
  { intros H. repeat (destruct H as [H|H]; [discriminate H|]). exact H. }
  split; [reflexivity|]. split; [exact Hout|].
  apply (analyze_rejects_unlisted_language Examples.ruby_arguments "ruby"
           (Examples.working Examples.morning)
           (enter (Examples.working Examples.morning))).
  - reflexivity.
  - exact Hout.
Defined.

(* ================================================================== *)
(** * Further properties of the adapter *)

(** ** Calls to the collaborator *)

(** X1.  Whatever the tool, the input and the collaborator's answer, a
    callback adds exactly one call to the log of collaborator calls, made
    with the input [repo_url] and the tool's option object: a failure is not
    retried and no path skips the call.  The completion does not depend on
    the calls logged before, nor on what the clock showed on entry. *)
Theorem one_collaborator_call
  (c : GitIngestMCP.ToolCall) (w : World) (run : Run) :
  log (snd (GitIngestMCP.handle c w run))
  = (log run ++ [ {| call_source := GitIngestMCP.repo_url c;
                     call_options := GitIngestMCP.options c |} ])%list
  /\ fst (GitIngestMCP.handle c w run) = completion (GitIngestMCP.handle c) w.
Proof.
  unfold completion.
  destruct c as [a|a|a|a]; cbn [GitIngestMCP.handle GitIngestMCP.repo_url
                                  GitIngestMCP.options].
  - rewrite !ingest_github_repo_run. split; reflexivity.
  - rewrite !get_repo_structure_run. split; reflexivity.
  - rewrite !analyze_code_files_run. split; reflexivity.
  - rewrite !get_repo_docs_run. split; reflexivity.
Qed.

(** ** The option object of [ingest_github_repo] *)

(** X2.  The option object [ingest_github_repo] builds never holds anything
    but the three known keys, each at most once and in the order
    [include_patterns], [exclude_patterns], [max_file_size]; and every value
    in it is truthy, so the collaborator is never handed [null] or a
    [max_file_size] of zero. *)
Theorem ingest_options_invariant (a : ingest_github_repo.args) :
  JSON.keys (ingest_github_repo.options a)
  = filter (fun k => match JSON.get (ingest_github_repo.options a) k with
                     | Some _ => true
                     | None => false
                     end)
      ["include_patterns"; "exclude_patterns"; "max_file_size"]
  /\ forall k v, In (k, v) (ingest_github_repo.options a) ->
       JS.ToBoolean (Some v) = true
       /\ v <> JSON.Null
       /\ forall negative, v <> JSON.Number (JSON.Zero negative).
Proof.
  destruct a as [u [i|] [e|] [[negative|negative|negative s x]|]];
    unfold ingest_github_repo.options;
    cbn [ingest_github_repo.include_patterns
         ingest_github_repo.exclude_patterns
         ingest_github_repo.max_file_size option_map];
    unfold assign_if_truthy;
    cbn [JS.ToBoolean JSON.strings JSON.is_zero negb]; cbn;
    (split; [reflexivity|]);
    intros k v H;
    repeat (destruct H as [H|H];
            [injection H as <- <-; cbn;
             repeat split; try discriminate; intros; discriminate|]);
    destruct H.
Qed.

(** X3.  [ingest_github_repo] answers a call with [max_file_size] zero (of
    either sign) exactly as it answers the same call without [max_file_size]: the whole
    completion, [options_used] included, is the same. *)
Theorem ingest_zero_size_reply_as_unset
  (u : string) (i e : option (list string)) (negative : bool) (w : World) :
  completion (ingest_github_repo.callback
                {| ingest_github_repo.repo_url := u;
                   ingest_github_repo.include_patterns := i;
                   ingest_github_repo.exclude_patterns := e;
                   ingest_github_repo.max_file_size :=
                     Some (JSON.Zero negative) |}) w
  = completion (ingest_github_repo.callback
                  {| ingest_github_repo.repo_url := u;
                     ingest_github_repo.include_patterns := i;
                     ingest_github_repo.exclude_patterns := e;
                     ingest_github_repo.max_file_size := None |}) w.
Proof.
  unfold completion. rewrite !ingest_github_repo_run. reflexivity.
Qed.

(** ** Success replies of the two filtered tools *)

(** X4.  When the collaborator resolves, [analyze_code_files] answers, for
    every language, with [summary], [tree] and [content] as received and an
    [analysis] object holding the language name, the input [repo_url] and,
    under [patterns_used], the very patterns that went to the collaborator
    as [include_patterns]. *)
Theorem analyze_success_reply
  (a : analyze_code_files.args) (w : World) (summary tree content_ : string) :
  ingest w (analyze_code_files.repo_url a)
    (analyze_code_files.options (analyze_code_files.language a))
  = Resolved (summary, tree, content_) ->
  exists r o patterns,
    calls (analyze_code_files.callback a) w
    = [ {| call_source := analyze_code_files.repo_url a; call_options := o |} ]
    /\ JSON.get o "include_patterns" = Some patterns
    /\ completion (analyze_code_files.callback a) w = Normal r
    /\ Spec.read r
       = Some (Spec.success
                 [ ("summary", JSON.Str summary);
                   ("tree", JSON.Str tree);
                   ("content", JSON.Str content_);
                   ("analysis",
                    JSON.Object
                      [ ("language",
                         JSON.Str (analyze_code_files.literal
                                     (analyze_code_files.language a)));
                        ("patterns_used", patterns);
                        ("repo_url",
                         JSON.Str (analyze_code_files.repo_url a)) ]) ]).
Proof.
  intros H. unfold calls, completion. rewrite analyze_code_files_run, H.
  eexists. eexists. eexists.
  split; [reflexivity|]. split; [reflexivity|]. split; [reflexivity|].
  rewrite read_printed. destruct a as [u []]; reflexivity.
Qed.

(** An instance: TypeScript, on texts that need escaping. *)
Lemma analyze_success_reply_witness :
  ingest MoreExamples.quoting
    (analyze_code_files.repo_url MoreExamples.analyze_typescript)
    (analyze_code_files.options
       (analyze_code_files.language MoreExamples.analyze_typescript))
  = Resolved ("say " ++ JSON.dquote ++ "hi" ++ JSON.dquote,
              "a\b",
              "line 1" ++ JSON.newline ++ "line 2")
  /\ exists r o patterns,
       calls (analyze_code_files.callback MoreExamples.analyze_typescript)
         MoreExamples.quoting
       = [ {| call_source := Examples.hello_world; call_options := o |} ]
       /\ JSON.get o "include_patterns" = Some patterns
       /\ completion (analyze_code_files.callback MoreExamples.analyze_typescript)
            MoreExamples.quoting = Normal r
       /\ Spec.read r
          = Some (Spec.success
                    [ ("summary",
                       JSON.Str ("say " ++ JSON.dquote ++ "hi" ++ JSON.dquote));
                      ("tree", JSON.Str "a\b");
                      ("content",
                       JSON.Str ("line 1" ++ JSON.newline ++ "line 2"));
                      ("analysis",
                       JSON.Object
                         [ ("language", JSON.Str "typescript");
                           ("patterns_used", patterns);
                           ("repo_url", JSON.Str Examples.hello_world) ]) ]).
Proof.
  split; [reflexivity|].
  apply (analyze_success_reply MoreExamples.analyze_typescript
           MoreExamples.quoting).
  reflexivity.
Defined.

(** X5.  When the collaborator resolves, [get_repo_docs] answers with
    [summary], [tree] and [content] as received and a [metadata] object
    holding the fixed type ["documentation"] and the input [repo_url];
    unlike [ingest_github_repo] it reports neither a timestamp nor the
    options used. *)
Theorem docs_success_reply
  (a : get_repo_docs.args) (w : World) (summary tree content_ : string) :
  ingest w (get_repo_docs.repo_url a) get_repo_docs.options
  = Resolved (summary, tree, content_) ->
  exists r,
    completion (get_repo_docs.callback a) w = Normal r
    /\ Spec.read r
       = Some (Spec.success
                 [ ("summary", JSON.Str summary);
                   ("tree", JSON.Str tree);
                   ("content", JSON.Str content_);
                   ("metadata",
                    JSON.Object
                      [ ("type", JSON.Str "documentation");
                        ("repo_url", JSON.Str (get_repo_docs.repo_url a)) ]) ]).
Proof.
  intros H. unfold completion. rewrite get_repo_docs_run, H.
  eexists. split; [reflexivity|]. rewrite read_printed. reflexivity.
Qed.

(** An instance, on texts that need escaping. *)
Lemma docs_success_reply_witness :
  ingest MoreExamples.quoting
    (get_repo_docs.repo_url MoreExamples.docs_of_hello_world)
    get_repo_docs.options
  = Resolved ("say " ++ JSON.dquote ++ "hi" ++ JSON.dquote,
              "a\b",
              "line 1" ++ JSON.newline ++ "line 2")
  /\ exists r,
       completion (get_repo_docs.callback MoreExamples.docs_of_hello_world)
         MoreExamples.quoting = Normal r
       /\ Spec.read r
          = Some (Spec.success
                    [ ("summary",
                       JSON.Str ("say " ++ JSON.dquote ++ "hi" ++ JSON.dquote));
                      ("tree", JSON.Str "a\b");
                      ("content",
                       JSON.Str ("line 1" ++ JSON.newline ++ "line 2"));
                      ("metadata",
                       JSON.Object
                         [ ("type", JSON.Str "documentation");
                           ("repo_url", JSON.Str Examples.hello_world) ]) ]).
Proof.
  split; [reflexivity|].
  apply (docs_success_reply MoreExamples.docs_of_hello_world
           MoreExamples.quoting).
  reflexivity.
Defined.

(** ** What a failure reply depends on *)

(** X6.  A failure depends on the raised value only through what the catch
    block extracts from it, and not on the clock: if the collaborator raises
    in two worlds and the extraction of the message, [error.message] for an
    [Error] and [String(error)] otherwise, completes in the same way on the
    two raised values, every tool, [ingest_github_repo] included, gives the
    same completion in both.  An [Error] and a thrown string with the same
    text cannot be told apart by the caller. *)
Theorem failure_reply_depends_on_message_only
  (c : GitIngestMCP.ToolCall) (w1 w2 : World) (e1 e2 : JS.thrown) :
  ingest w1 (GitIngestMCP.repo_url c) (GitIngestMCP.options c) = Rejected e1 ->
  ingest w2 (GitIngestMCP.repo_url c) (GitIngestMCP.options c) = Rejected e2 ->
  error_message e1 = error_message e2 ->
  completion (GitIngestMCP.handle c) w1 = completion (GitIngestMCP.handle c) w2.
Proof.
  intros H1 H2 Hm. unfold completion.
  destruct c as [a|a|a|a];
    cbn [GitIngestMCP.handle GitIngestMCP.repo_url GitIngestMCP.options] in *;
    [ rewrite !ingest_github_repo_run | rewrite !get_repo_structure_run
    | rewrite !analyze_code_files_run | rewrite !get_repo_docs_run ];
    rewrite H1, H2, Hm; reflexivity.
Qed.

(** An instance: a thrown string in January against an [Error] in June. *)
Lemma failure_reply_depends_on_message_only_witness :
  ingest Examples.rate_limited
    (GitIngestMCP.repo_url
       (GitIngestMCP.IngestGithubRepo Examples.ingest_python_capped))
    (GitIngestMCP.options
       (GitIngestMCP.IngestGithubRepo Examples.ingest_python_capped))
  = Rejected (JS.Plain (JSON.Str "rate limited"))
  /\ ingest MoreExamples.rate_limited_error
       (GitIngestMCP.repo_url
          (GitIngestMCP.IngestGithubRepo Examples.ingest_python_capped))
       (GitIngestMCP.options
          (GitIngestMCP.IngestGithubRepo Examples.ingest_python_capped))
     = Rejected (JS.ErrorInstance (Some (JSON.Str "rate limited")))
  /\ error_message (JS.Plain (JSON.Str "rate limited"))
     = error_message (JS.ErrorInstance (Some (JSON.Str "rate limited")))
  /\ completion
       (GitIngestMCP.handle
          (GitIngestMCP.IngestGithubRepo Examples.ingest_python_capped))
       Examples.rate_limited
     = completion
         (GitIngestMCP.handle
            (GitIngestMCP.IngestGithubRepo Examples.ingest_python_capped))
         MoreExamples.rate_limited_error.
Proof.
  split; [reflexivity|]. split; [reflexivity|]. split; [reflexivity|].
  apply (failure_reply_depends_on_message_only
           (GitIngestMCP.IngestGithubRepo Examples.ingest_python_capped)
           Examples.rate_limited MoreExamples.rate_limited_error
           (JS.Plain (JSON.Str "rate limited"))
           (JS.ErrorInstance (Some (JSON.Str "rate limited"))));
    reflexivity.
Defined.

(** The texts [String] gives for large numbers and for objects are the ones
    the replies carry. *)
Example failure_message_texts :
  error_message (JS.Plain (JSON.Number (JSON.integer (10 ^ 21))))
  = Normal (Some (JSON.Str "1e+21"))
  /\ error_message (JS.Plain (JSON.Object []))
     = Normal (Some (JSON.Str "[object Object]"))
  /\ error_message (JS.Plain (JSON.Object [("toString", JSON.Null)]))
     = Abrupt JS.cannot_convert
  /\ error_message (JS.Plain (JSON.Array [JSON.Object [("toString", JSON.Null)]]))
     = Abrupt JS.cannot_convert
  /\ error_message (JS.NoPrototype []) = Abrupt JS.cannot_convert
  /\ error_message (JS.ErrorInstance (Some (JSON.Number (JSON.integer 42))))
     = Normal (Some (JSON.Number (JSON.integer 42))).
Proof. repeat split; reflexivity. Qed.

(** ** What the input shapes accept *)

Lemma z_string_accepts (raw : option JSON.value) (s : string) :
  z.string raw = Some s <-> raw = Some (JSON.Str s).
Proof.
  unfold z.string. destruct raw as [[]|]; split; intros H;
    try discriminate H; injection H as <-; reflexivity.
Qed.

Lemma all_items_strings (xs : list JSON.value) (l : list string) :
  z.all_items z.string xs = Some l <-> xs = map JSON.Str l.
Proof.
  revert l. induction xs as [|x xs IH]; intros l; cbn [z.all_items].
  - destruct l; split; intros H; try discriminate H; reflexivity.
  - split.
    + destruct (z.string (Some x)) as [s|] eqn:Es; [|discriminate].
      destruct (z.all_items z.string xs) as [rest|] eqn:Er; [|discriminate].
      intros H. injection H as <-.
      apply z_string_accepts in Es. injection Es as ->.
      cbn [map]. f_equal. apply IH. reflexivity.
    + destruct l as [|s l]; [discriminate|]. cbn [map].
      intros H. injection H as -> Hxs.
      apply IH in Hxs. now rewrite Hxs.
Qed.

Lemma z_optional_strings_accepts (raw : option JSON.value)
  (o : option (list string)) :
  z.optional (z.array z.string) raw = Some o
  <-> raw = option_map JSON.strings o.
Proof.
  unfold z.optional, z.array, JSON.strings.
  destruct raw as [v|]; destruct o as [l|]; cbn [option_map];
    try (split; intros H; (discriminate H || reflexivity)).
  - split.
    + destruct v; try discriminate.
      destruct (z.all_items z.string items) as [l'|] eqn:E; [|discriminate].
      cbn [option_map]. intros H. injection H as <-.
      apply all_items_strings in E. now rewrite E.
    + intros H. injection H as ->.
      rewrite (proj2 (all_items_strings (map JSON.Str l) l) eq_refl).
      reflexivity.
  - split; [|discriminate].
    destruct v; try discriminate.
    destruct (z.all_items z.string items); discriminate.
Qed.

Lemma z_optional_number_accepts (raw : option JSON.value) (o : option JSON.number) :
  z.optional z.number raw = Some o <-> raw = option_map JSON.Number o.
Proof.
  unfold z.optional, z.number.
  destruct raw as [[]|]; destruct o as [m|]; cbn [option_map]; split;
    intros H; try discriminate H; try reflexivity;
    injection H as <-; reflexivity.
Qed.

Lemma z_enum_languages_accepts (raw : option JSON.value)
  (l : analyze_code_files.Language) :
  z.enum analyze_code_files.languages raw = Some l
  <-> raw = Some (JSON.Str (analyze_code_files.literal l)).
Proof.
  split.
  - unfold z.enum. destruct raw as [[| | |s| |]|]; try discriminate.
    unfold analyze_code_files.languages. cbn [z.member].
    repeat match goal with
           | |- context [String.eqb s ?k] =>
               destruct (String.eqb_spec s k) as [->|_];
               [intros H; injection H as <-; reflexivity|]
           end.
    discriminate.
  - intros ->. cbn [z.enum]. apply member_literal.
Qed.

(** X7.  The shape of [ingest_github_repo] accepts a raw argument object
    exactly when [repo_url] is a string, [include_patterns] and
    [exclude_patterns] are each absent or an array of strings, and
    [max_file_size] is absent or a number; the parsed arguments carry these
    values unchanged, and an absent key parses to an absent field.  A
    missing [repo_url], a [null], or an array with a non-string element is
    rejected; keys outside the shape play no part. *)
Theorem ingest_shape_accepts_exactly
  (raw : JSON.object) (a : ingest_github_repo.args) :
  ingest_github_repo.inputSchema raw = Some a
  <-> JSON.get raw "repo_url"
      = Some (JSON.Str (ingest_github_repo.repo_url a))
      /\ JSON.get raw "include_patterns"
         = option_map JSON.strings (ingest_github_repo.include_patterns a)
      /\ JSON.get raw "exclude_patterns"
         = option_map JSON.strings (ingest_github_repo.exclude_patterns a)
      /\ JSON.get raw "max_file_size"
         = option_map JSON.Number (ingest_github_repo.max_file_size a).
Proof.
  unfold ingest_github_repo.inputSchema. destruct a as [u i e m].
  cbn [ingest_github_repo.repo_url ingest_github_repo.include_patterns
       ingest_github_repo.exclude_patterns ingest_github_repo.max_file_size].
  rewrite <- z_string_accepts, <- !z_optional_strings_accepts,
    <- z_optional_number_accepts.
  destruct (z.string _) as [u'|];
    destruct (z.optional (z.array z.string) (JSON.get raw "include_patterns"))
      as [i'|];
    destruct (z.optional (z.array z.string) (JSON.get raw "exclude_patterns"))
      as [e'|];
    destruct (z.optional z.number _) as [m'|];
    split; intros H;
    try discriminate H;
    try (destruct H as (H1 & H2 & H3 & H4); discriminate);
    try (injection H as <- <- <- <-; repeat split; reflexivity).
  destruct H as (H1 & H2 & H3 & H4).
  injection H1 as <-. injection H2 as <-. injection H3 as <-.
  injection H4 as <-. reflexivity.
Qed.

(** X8.  The shape of [analyze_code_files] accepts a raw argument object
    exactly when [repo_url] is a string and [language] is the string of one
    of the seven listed languages, and it parses to that language: parsing
    a language name and writing a language out are inverse to each other. *)
Theorem analyze_shape_accepts_exactly
  (raw : JSON.object) (a : analyze_code_files.args) :
  analyze_code_files.inputSchema raw = Some a
  <-> JSON.get raw "repo_url"
      = Some (JSON.Str (analyze_code_files.repo_url a))
      /\ JSON.get raw "language"
         = Some (JSON.Str (analyze_code_files.literal
                             (analyze_code_files.language a))).
Proof.
  unfold analyze_code_files.inputSchema. destruct a as [u l].
  cbn [analyze_code_files.repo_url analyze_code_files.language].
  rewrite <- z_string_accepts, <- z_enum_languages_accepts.
  destruct (z.string _) as [u'|];
    destruct (z.enum analyze_code_files.languages _) as [l'|];
    split; intros H;
    try discriminate H;
    try (destruct H as (H1 & H2); discriminate);
    try (injection H as <- <-; split; reflexivity).
  destruct H as (H1 & H2). injection H1 as <-. injection H2 as <-.
  reflexivity.
Qed.

(** X9.  [repo_url] is required by all four tools: when the raw arguments
    hold no string under [repo_url] (the key is missing, or holds [null], a
    number, an array), every one of the four shapes rejects them, whatever
    the other keys hold. *)
Theorem repo_url_required (raw : JSON.object) :
  (forall u, JSON.get raw "repo_url" <> Some (JSON.Str u)) ->
  ingest_github_repo.inputSchema raw = None
  /\ get_repo_structure.inputSchema raw = None
  /\ analyze_code_files.inputSchema raw = None
  /\ get_repo_docs.inputSchema raw = None.
Proof.
  intros H.
  assert (E : z.string (JSON.get raw "repo_url") = None).
  { destruct (z.string (JSON.get raw "repo_url")) as [u|] eqn:Eu;
      [|reflexivity].
    apply z_string_accepts in Eu. exfalso. exact (H u Eu). }
  unfold ingest_github_repo.inputSchema, get_repo_structure.inputSchema,
    analyze_code_files.inputSchema, get_repo_docs.inputSchema.
  rewrite E. repeat split.
Qed.

(** An instance: [repo_url] is [null] and everything else is in order. *)
Lemma repo_url_required_witness :
  (forall u, JSON.get MoreExamples.null_repo_url "repo_url"
             <> Some (JSON.Str u))
  /\ ingest_github_repo.inputSchema MoreExamples.null_repo_url = None
  /\ get_repo_structure.inputSchema MoreExamples.null_repo_url = None
  /\ analyze_code_files.inputSchema MoreExamples.null_repo_url = None
  /\ get_repo_docs.inputSchema MoreExamples.null_repo_url = None.
Proof.
  assert (H : forall u, JSON.get MoreExamples.null_repo_url "repo_url"
                        <> Some (JSON.Str u)).
  { intros u E. discriminate E. }
  split; [exact H|].
  apply (repo_url_required MoreExamples.null_repo_url H).
Defined.

(** X10.  From the raw arguments to the collaborator, [ingest_github_repo]
    passes each of its three optional arguments through untouched: for
    accepted arguments, what the option object holds under
    [include_patterns], [exclude_patterns] or [max_file_size] is the raw
    argument itself when that argument is truthy, and nothing otherwise. *)
Theorem ingest_options_mirror_raw_arguments
  (raw : JSON.object) (a : ingest_github_repo.args) (k : string) :
  ingest_github_repo.inputSchema raw = Some a ->
  In k ["include_patterns"; "exclude_patterns"; "max_file_size"] ->
  JSON.get (ingest_github_repo.options a) k
  = if JS.ToBoolean (JSON.get raw k) then JSON.get raw k else None.
Proof.
  unfold ingest_github_repo.inputSchema.
  destruct (z.string _) as [u|]; [|discriminate].
  destruct (z.optional (z.array z.string) (JSON.get raw "include_patterns"))
    as [i|] eqn:Ei; [|discriminate].
  destruct (z.optional (z.array z.string) (JSON.get raw "exclude_patterns"))
    as [e|] eqn:Ee; [|discriminate].
  destruct (z.optional z.number _) as [m|] eqn:Em; [|discriminate].
  intros H. injection H as <-.
  apply z_optional_strings_accepts in Ei, Ee.
  apply z_optional_number_accepts in Em.
  intros [<-|[<-|[<-|[]]]]; rewrite ?Ei, ?Ee, ?Em;
    unfold ingest_github_repo.options;
    cbn [ingest_github_repo.include_patterns
         ingest_github_repo.exclude_patterns
         ingest_github_repo.max_file_size];
    destruct i, e, m as [n|]; unfold assign_if_truthy;
    cbn [option_map JS.ToBoolean JSON.strings];
    try (destruct (JSON.is_zero n)); reflexivity.
Qed.

(** An instance: [max_file_size] given as zero, [include_patterns] as an
    empty array. *)
Lemma ingest_options_mirror_raw_arguments_witness :
  ingest_github_repo.inputSchema MoreExamples.zero_and_empty
  = Some MoreExamples.zero_and_empty_args
  /\ In "max_file_size"
       ["include_patterns"; "exclude_patterns"; "max_file_size"]
  /\ JSON.get (ingest_github_repo.options MoreExamples.zero_and_empty_args)
       "max_file_size"
     = if JS.ToBoolean (JSON.get MoreExamples.zero_and_empty "max_file_size")
       then JSON.get MoreExamples.zero_and_empty "max_file_size"
       else None.
Proof.
  assert (Hin : In "max_file_size"
                  ["include_patterns"; "exclude_patterns"; "max_file_size"]).
  { right. right. left. reflexivity. }
  split; [reflexivity|]. split; [exact Hin|].
  apply (ingest_options_mirror_raw_arguments MoreExamples.zero_and_empty
           MoreExamples.zero_and_empty_args "max_file_size");
    [reflexivity | exact Hin].
Defined.

(** ** Registration *)

(** X11.  [init] wires every tool name to its own shape and callback: when
    the raw arguments are accepted by the shape registered under the name
    of a call, dispatching that name runs exactly the callback of that tool
    on the parsed arguments and hands back its reply.  (Dispatch is the
    SDK's validate-then-call step, as modelled in [McpServer.callTool].) *)
Theorem dispatch_reaches_callback
  (c : GitIngestMCP.ToolCall) (raw : JSON.object) (w : World) (run : Run) :
  accepted_as raw c ->
  McpServer.callTool GitIngestMCP.init (GitIngestMCP.tool_name c)
    (Some (JSON.Object raw)) w run
  = bind (GitIngestMCP.handle c) (fun r => ret (McpServer.Result r)) w run.
Proof.
  intros H. unfold McpServer.callTool, GitIngestMCP.init.
  destruct c as [a|a|a|a];
    cbn [accepted_as GitIngestMCP.tool_name GitIngestMCP.handle] in *;
    cbn [find McpServer.name McpServer.tool McpServer.run
         String.eqb Ascii.eqb Bool.eqb];
    rewrite H; reflexivity.
Qed.

(** An instance: TypeScript analysis requested with an extra key. *)
Lemma dispatch_reaches_callback_witness :
  accepted_as MoreExamples.typescript_arguments
    (GitIngestMCP.AnalyzeCodeFiles MoreExamples.analyze_typescript)
  /\ McpServer.callTool GitIngestMCP.init
       (GitIngestMCP.tool_name
          (GitIngestMCP.AnalyzeCodeFiles MoreExamples.analyze_typescript))
       (Some (JSON.Object MoreExamples.typescript_arguments))
       MoreExamples.quoting (enter MoreExamples.quoting)
     = bind (GitIngestMCP.handle
               (GitIngestMCP.AnalyzeCodeFiles MoreExamples.analyze_typescript))
         (fun r => ret (McpServer.Result r))
         MoreExamples.quoting (enter MoreExamples.quoting).
Proof.
  split; [reflexivity|].
  apply (dispatch_reaches_callback
           (GitIngestMCP.AnalyzeCodeFiles MoreExamples.analyze_typescript)
           MoreExamples.typescript_arguments MoreExamples.quoting
           (enter MoreExamples.quoting)).
  reflexivity.
Defined.

(** ** The language table *)

(** X12.  In the pattern table of [analyze_code_files] every language has
    at least one pattern, no pattern belongs to two languages, and no
    pattern is itself on the fixed exclude list: the include patterns sent
    for one language never ask for another language's files, and the
    exclude list never cancels an include pattern outright. *)
Theorem pattern_table_separates_languages
  (l1 l2 : analyze_code_files.Language) :
  analyze_code_files.patternMap l1 <> []
  /\ (forall p, In p (analyze_code_files.patternMap l1) ->
                In p (analyze_code_files.patternMap l2) -> l1 = l2)
  /\ (forall p, In p (analyze_code_files.patternMap l1) ->
                JSON.get (analyze_code_files.options l2) "exclude_patterns"
                = Some (JSON.strings
                          ["node_modules/*"; "dist/*"; "build/*"; "*.min.js"])
                /\ ~ In p ["node_modules/*"; "dist/*"; "build/*"; "*.min.js"]).
Proof.
  split; [destruct l1; discriminate|]. split.
  - intros p H1 H2.
    destruct l1; cbn in H1;
      repeat (destruct H1 as [<-|H1]); try contradiction;
      destruct l2; cbn in H2;
      repeat (destruct H2 as [H2|H2]; try discriminate H2);
      try contradiction; reflexivity.
  - intros p H1. split; [reflexivity|]. intros H2.
    destruct l1; cbn in H1;
      repeat (destruct H1 as [<-|H1]); try contradiction;
      cbn in H2;
      repeat (destruct H2 as [H2|H2]; try discriminate H2);
      contradiction.
Qed.
